(** * NDAX order-book data source: a shallow embedding

    The development follows [ndax_api_order_book_data_source.py].  The
    coroutines of [NdaxAPIOrderBookDataSource] are written in an
    exception-and-state monad over a record that holds the class attribute
    [_trading_pair_id_map], the scripted behaviour of the network and the
    effects the coroutines leave behind (requests, sleeps, log lines, queue
    contents). *)

From stdpp Require Import gmap strings list fin_maps.
From Stdlib Require Import ZArith QArith Qcanon Lia.

Local Open Scope Z_scope.
Local Open Scope string_scope.
Local Open Scope list_scope.

(** ** Constants of [ndax_constants.py] *)

Module CONSTANTS.
Definition MARKETS_URL : string := "GetInstruments".
Definition ORDER_BOOK_URL : string := "GetL2Snapshot".
Definition LAST_TRADE_PRICE_URL : string := "GetLevel1".
Definition WS_ORDER_BOOK_CHANNEL : string := "SubscribeLevel2".
Definition WS_ORDER_BOOK_L2_UPDATE_EVENT : string := "Level2UpdateEvent".
Definition WSS_URLS : list (string * string) :=
  [("ndax_main", "wss://api.ndax.io/WSGateway");
   ("ndax_testnet", "wss://ndaxmarginstaging.cdnhop.net/WSGateway")].
End CONSTANTS.

(** ** Payloads *)

(** One element of the [GetInstruments] reply.  A field is [None] when the
    key is absent from the JSON object, in which case subscripting it raises
    [KeyError]. *)
Record instrument := {
  Product1Symbol : option string;
  Product2Symbol : option string;
  InstrumentId : option Z
}.

(** Modelled from the spec: the declaration of [NdaxOrderBookEntry] (module
    [ndax_order_book_message]) is not among the sources.  The record keeps the
    fields the spec names for a price-level entry (side flag, price,
    quantity) and [actionDateTime], the per-entry update timestamp the
    listener reads. *)
Record NdaxOrderBookEntry := {
  side : Z;
  price : Qc;
  quantity : Qc;
  actionDateTime : Z
}.

(** A decoded JSON document, by the shapes the data source meets:
    an array of instrument objects, an array of entry tuples already passed
    through the [NdaxOrderBookEntry] constructor, and any other document, on which the
    traversals below raise [TypeError]. *)
Inductive json :=
| JInstruments (l : list instrument)
| JEntries (l : list NdaxOrderBookEntry)
| JOther (text : string).

(** ** Exceptions *)

Inductive exn :=
| CancelledError
| KeyError (key : string)
| ValueError (msg : string)
| TypeError
| ContentTypeError
| IOError (trading_pair url : string) (http_status : Z) (response : json)
| UnboundLocalError (var : string)
| ClientError (msg : string).

Definition is_cancelled (e : exn) : bool :=
  match e with CancelledError => true | _ => false end.

Inductive result (A : Type) :=
| Ok (a : A)
| Raise (e : exn).
Arguments Ok {A} a.
Arguments Raise {A} e.

(** ** The environment *)

Record http_response := { status : Z; body : option json }.

Inductive http_outcome :=
| HttpReply (r : http_response)
| HttpRaises (e : exn).

Record request := { url : string; params : list (string * Z) }.

Inductive log_entry :=
| LogNetwork (msg app_warning_msg : string)
| LogError (msg : string).

Inductive sleep_req :=
| Seconds (n : Z)
| UntilNextHour.

(** A frame read from the websocket.  [frame_n] is the field [n] of the
    envelope; [frame_o] is the outcome of decoding its field [o] into entries, [None] when
    [ujson.loads] or the entry constructor raises.  The payload is decoded
    only after the event name has passed the filter. *)
Record ws_frame := { frame_n : string; frame_o : option (list NdaxOrderBookEntry) }.

Inductive ws_event :=
| WsMessage (raw : option ws_frame)   (* [None]: the envelope does not decode *)
| WsRaises (e : exn).

Record ws_session := {
  send_results : list (option exn);   (* outcome of each [send_request] *)
  inbound : list ws_event             (* [iter_messages]; it ends with the list *)
}.

(** An attempt to connect either raises or yields a connection, named by a
    handle. *)
Inductive connect_outcome :=
| ConnectRaises (e : exn)
| Connected (handle : nat) (s : ws_session).

(** A subscription request.  [pair] is the trading pair whose exchange symbol
    is sent ([convert_to_exchange_trading_pair] is not among the sources). *)
Record ws_request := { endpoint_name : string; pair : string; Depth : Z }.

(** ** Messages and order books *)

Inductive OrderBookMessageType := SNAPSHOT | DIFF.

Record metadata := { md_trading_pair : string; md_instrument_id : option Z }.

(** Modelled from the spec: the order book state (class [OrderBook] and its
    NDAX subclass) is not among the sources.  Two price-keyed maps and the
    current update id. *)
Record OrderBookState := {
  bids : gmap Qc Qc;
  asks : gmap Qc Qc;
  updateId : Z
}.

(** What a message wraps: the dictionary with the entries under its key [data], or the order
    book object the snapshot loop passes on. *)
Inductive content :=
| ContentData (data : list NdaxOrderBookEntry)
| ContentBook (book : OrderBookState).

(** Modelled from the spec: [NdaxOrderBookMessage] is not among the sources.
    The envelope carries its tag, the wrapped content, the [timestamp]
    argument of the constructor and the optional metadata; the spec's
    [updateId] of a message is that timestamp. *)
Record OrderBookMessage := {
  msg_type : OrderBookMessageType;
  msg_content : content;
  timestamp : Z;
  msg_metadata : option metadata
}.

Definition update_id (m : OrderBookMessage) : Z := timestamp m.

Definition entries (m : OrderBookMessage) : list NdaxOrderBookEntry :=
  match msg_content m with
  | ContentData d => d
  | ContentBook _ => []
  end.

(** ** Program state *)

Record State := {
  _trading_pair_id_map : gmap string Z;   (* class attribute *)
  http_in : list http_outcome;           (* replies still to come *)
  http_log : list request;               (* requests issued so far *)
  sleep_in : list bool;                  (* [true]: cancelled during that sleep *)
  sleeps : list sleep_req;
  clock : Z;                             (* [time.time()], in milliseconds *)
  logs : list log_entry;
  output : list OrderBookMessage;        (* the [output] queue *)
  ws_in : list connect_outcome;          (* connection attempts still to come *)
  ws : option nat;                       (* local variable [ws] of the diff loop *)
  ws_sent : list ws_request;
  ws_closed : list nat
}.

Definition M (A : Type) : Type := State -> result A * State.

Definition ret {A} (a : A) : M A := fun s => (Ok a, s).
Definition raise {A} (e : exn) : M A := fun s => (Raise e, s).
Definition bind {A B} (m : M A) (k : A -> M B) : M B :=
  fun s => match m s with
           | (Ok a, s') => k a s'
           | (Raise e, s') => (Raise e, s')
           end.

Notation "'let*' x ':=' m 'in' k" := (bind m (fun x => k))
  (at level 10, x name, m at level 100, k at level 200, only parsing).

(** [try: body except Exception/CancelledError ...] and [finally].  An
    exception raised by the [finally] block replaces the one in flight. *)
Definition try_except {A} (body : M A) (handler : exn -> M A) : M A :=
  fun s => match body s with
           | (Raise e, s') => handler e s'
           | r => r
           end.

Definition try_finally {A} (body : M A) (final : M unit) : M A :=
  fun s => match body s with
           | (r, s') =>
               match final s' with
               | (Ok _, s'') => (r, s'')
               | (Raise e, s'') => (Raise e, s'')
               end
           end.

Fixpoint for_each {A} (l : list A) (f : A -> M unit) : M unit :=
  match l with
  | [] => ret tt
  | x :: l' => let* _ := f x in for_each l' f
  end.

(** *** State updates *)

Definition set_trading_pair_id_map (m : gmap string Z) (s : State) : State :=
  {| _trading_pair_id_map := m; http_in := http_in s; http_log := http_log s;
     sleep_in := sleep_in s; sleeps := sleeps s; clock := clock s;
     logs := logs s; output := output s; ws_in := ws_in s; ws := ws s;
     ws_sent := ws_sent s;
     ws_closed := ws_closed s |}.

Definition set_http (i : list http_outcome) (l : list request) (s : State) : State :=
  {| _trading_pair_id_map := _trading_pair_id_map s; http_in := i; http_log := l;
     sleep_in := sleep_in s; sleeps := sleeps s; clock := clock s;
     logs := logs s; output := output s; ws_in := ws_in s; ws := ws s;
     ws_sent := ws_sent s;
     ws_closed := ws_closed s |}.

Definition set_sleep (i : list bool) (l : list sleep_req) (t : Z) (s : State) : State :=
  {| _trading_pair_id_map := _trading_pair_id_map s; http_in := http_in s;
     http_log := http_log s; sleep_in := i; sleeps := l; clock := t;
     logs := logs s; output := output s; ws_in := ws_in s; ws := ws s;
     ws_sent := ws_sent s;
     ws_closed := ws_closed s |}.

Definition set_logs (l : list log_entry) (s : State) : State :=
  {| _trading_pair_id_map := _trading_pair_id_map s; http_in := http_in s;
     http_log := http_log s; sleep_in := sleep_in s; sleeps := sleeps s;
     clock := clock s; logs := l; output := output s; ws_in := ws_in s;
     ws := ws s; ws_sent := ws_sent s;
     ws_closed := ws_closed s |}.

Definition set_output (o : list OrderBookMessage) (s : State) : State :=
  {| _trading_pair_id_map := _trading_pair_id_map s; http_in := http_in s;
     http_log := http_log s; sleep_in := sleep_in s; sleeps := sleeps s;
     clock := clock s; logs := logs s; output := o; ws_in := ws_in s;
     ws := ws s; ws_sent := ws_sent s;
     ws_closed := ws_closed s |}.

Definition set_ws (i : list connect_outcome) (w : option nat) (s : State) : State :=
  {| _trading_pair_id_map := _trading_pair_id_map s; http_in := http_in s;
     http_log := http_log s; sleep_in := sleep_in s; sleeps := sleeps s;
     clock := clock s; logs := logs s; output := output s; ws_in := i;
     ws := w; ws_sent := ws_sent s;
     ws_closed := ws_closed s |}.

Definition set_ws_sent (l : list ws_request) (s : State) : State :=
  {| _trading_pair_id_map := _trading_pair_id_map s; http_in := http_in s;
     http_log := http_log s; sleep_in := sleep_in s; sleeps := sleeps s;
     clock := clock s; logs := logs s; output := output s; ws_in := ws_in s;
     ws := ws s; ws_sent := l;
     ws_closed := ws_closed s |}.

Definition set_ws_closed (l : list nat) (s : State) : State :=
  {| _trading_pair_id_map := _trading_pair_id_map s; http_in := http_in s;
     http_log := http_log s; sleep_in := sleep_in s; sleeps := sleeps s;
     clock := clock s; logs := logs s; output := output s; ws_in := ws_in s;
     ws := ws s; ws_sent := ws_sent s;
     ws_closed := l |}.

(** *** Primitive effects *)

(** [client.get(url, params=params)]: the request is recorded and the next
    scripted outcome is consumed; with nothing left to consume the transport
    raises. *)
Definition client_get (u : string) (p : list (string * Z)) : M http_response :=
  fun s =>
    let log := http_log s ++ [{| url := u; params := p |}] in
    match http_in s with
    | [] => (Raise (ClientError "connection failed"), set_http [] log s)
    | HttpReply r :: rest => (Ok r, set_http rest log s)
    | HttpRaises e :: rest => (Raise e, set_http rest log s)
    end.

(** [await response.json()] *)
Definition response_json (r : http_response) : M json :=
  match body r with
  | Some j => ret j
  | None => raise ContentTypeError
  end.

Definition hour_ms : Z := 3600000.

Definition wake_time (d : sleep_req) (now : Z) : Z :=
  match d with
  | Seconds n => now + 1000 * n
  | UntilNextHour => (now / hour_ms + 1) * hour_ms
  end.

(** [await asyncio.sleep(d)]: a suspension point, at which the task may be
    cancelled. *)
Definition sleep (d : sleep_req) : M unit :=
  fun s =>
    match sleep_in s with
    | true :: rest => (Raise CancelledError, set_sleep rest (sleeps s ++ [d]) (clock s) s)
    | false :: rest => (Ok tt, set_sleep rest (sleeps s ++ [d]) (wake_time d (clock s)) s)
    | [] => (Ok tt, set_sleep [] (sleeps s ++ [d]) (wake_time d (clock s)) s)
    end.

Definition log (l : log_entry) : M unit :=
  fun s => (Ok tt, set_logs (logs s ++ [l]) s).

(** [output.put_nowait(m)] *)
Definition put_nowait (m : OrderBookMessage) : M unit :=
  fun s => (Ok tt, set_output (output s ++ [m]) s).

(** [int(time.time() * 1e3)] *)
Definition time_ms : M Z := fun s => (Ok (clock s), s).

(** ** Instrument directory *)

(** [d[key]] on a JSON object. *)
Definition subscript {A} (field : option A) (key : string) : M A :=
  match field with
  | Some v => ret v
  | None => raise (KeyError key)
  end.

(** [for instrument in resp_json]: the elements the loop body can subscript
    with a string key. *)
Definition iter_instruments (j : json) : M (list instrument) :=
  match j with
  | JInstruments l => ret l
  | JEntries [] => ret []
  | _ => raise TypeError
  end.

(** The body of the [for] loop of [init_trading_pair_ids], folded over the
    reply: [results.update] of one key per instrument. *)
Fixpoint collect_instruments (l : list instrument) (results : gmap string Z)
    : M (gmap string Z) :=
  match l with
  | [] => ret results
  | i :: l' =>
      let* p1 := subscript (Product1Symbol i) "Product1Symbol" in
      let* p2 := subscript (Product2Symbol i) "Product2Symbol" in
      let* id := subscript (InstrumentId i) "InstrumentId" in
      collect_instruments l' (<[String.append p1 (String.append "-" p2) := id]> results)
  end.

Definition init_trading_pair_ids : M unit :=
  let* _ := (fun s => (Ok tt, set_trading_pair_id_map ∅ s)) in
  let* response := client_get CONSTANTS.MARKETS_URL [("OMSId", 1)] in
  let* results :=
    (if (status response =? 200)%Z then
       let* resp_json := response_json response in
       let* l := iter_instruments resp_json in
       collect_instruments l ∅
     else ret ∅) in
  fun s => (Ok tt, set_trading_pair_id_map results s).

(** The subscript [cls._trading_pair_id_map[trading_pair]]: the directory
    lookup. *)
Definition resolve (trading_pair : string) : M Z :=
  fun s =>
    match _trading_pair_id_map s !! trading_pair with
    | Some id => (Ok id, s)
    | None => (Raise (KeyError trading_pair), s)
    end.

(** ** Snapshot fetcher *)

(** [NdaxOrderBookEntry] applied to each element of the reply. *)
Definition iter_entries (j : json) : M (list NdaxOrderBookEntry) :=
  match j with
  | JEntries l => ret l
  | JInstruments [] => ret []
  | _ => raise TypeError
  end.

Definition get_order_book_data (trading_pair : string) : M (list NdaxOrderBookEntry) :=
  let* _ := init_trading_pair_ids in
  let* id := resolve trading_pair in
  let* response :=
    client_get CONSTANTS.ORDER_BOOK_URL
      [("OMSId", 1); ("InstrumentId", id); ("Depth", 999999)] in
  if negb (status response =? 200)%Z then
    let* j := response_json response in
    raise (IOError trading_pair CONSTANTS.ORDER_BOOK_URL (status response) j)
  else
    let* j := response_json response in
    iter_entries j.

(** ** Order book state *)

(** Modelled from the spec: which value of the side flag marks a bid is not
    in the sources; 0 is taken for the buy side. *)
Definition is_bid (e : NdaxOrderBookEntry) : bool := (side e =? 0)%Z.

Definition upsert_level (e : NdaxOrderBookEntry) (m : gmap Qc Qc) : gmap Qc Qc :=
  if bool_decide (0 < quantity e)%Qc then <[price e := quantity e]> m
  else delete (price e) m.

Definition apply_entry (st : OrderBookState) (e : NdaxOrderBookEntry) : OrderBookState :=
  if is_bid e then
    {| bids := upsert_level e (bids st); asks := asks st; updateId := updateId st |}
  else
    {| bids := bids st; asks := upsert_level e (asks st); updateId := updateId st |}.

Definition empty_book : OrderBookState := {| bids := ∅; asks := ∅; updateId := 0 |}.

(** Modelled from the spec: [applySnapshot] replaces both price maps from the
    entries of the message, by side, and takes its update id, whatever the
    state held. *)
Definition applySnapshot (st : OrderBookState) (m : OrderBookMessage) : OrderBookState :=
  let filled := fold_left apply_entry (entries m) empty_book in
  {| bids := bids filled; asks := asks filled; updateId := update_id m |}.

(** Modelled from the spec: [applyDiff] rejects a message older than the
    state (the log line of the rejection is not part of the state);
    otherwise each entry upserts its level when its quantity is positive and
    removes it when not, and the update id is taken after the whole batch. *)
Definition applyDiff (st : OrderBookState) (m : OrderBookMessage) : OrderBookState :=
  if (update_id m <? updateId st)%Z then st
  else
    let st' := fold_left apply_entry (entries m) st in
    {| bids := bids st'; asks := asks st'; updateId := update_id m |}.

(** Modelled from the spec: the message constructors of [NdaxOrderBook] are
    not among the sources; each wraps its arguments under its own tag. *)
Definition snapshot_message_from_exchange (msg : content) (ts : Z)
    (md : option metadata) : OrderBookMessage :=
  {| msg_type := SNAPSHOT; msg_content := msg; timestamp := ts; msg_metadata := md |}.

Definition diff_message_from_exchange (msg : content) (ts : Z)
    (md : option metadata) : OrderBookMessage :=
  {| msg_type := DIFF; msg_content := msg; timestamp := ts; msg_metadata := md |}.

Definition get_new_order_book (trading_pair : string) : M OrderBookState :=
  let* snapshot := get_order_book_data trading_pair in
  let* snapshot_timestamp := time_ms in
  let snapshot_msg :=
    snapshot_message_from_exchange (ContentData snapshot) snapshot_timestamp None in
  let order_book := empty_book in
  ret (applySnapshot order_book snapshot_msg).

(** ** Synchronization loops *)

Inductive loop_outcome :=
| StillRunning          (* the iterations granted were all completed *)
| Exited (e : exn).     (* an exception left the [while True] *)

Fixpoint while_true (fuel : nat) (body : M unit) (s : State) : loop_outcome * State :=
  match fuel with
  | O => (StillRunning, s)
  | S fuel' =>
      match body s with
      | (Ok _, s') => while_true fuel' body s'
      | (Raise e, s') => (Exited e, s')
      end
  end.

(** The two handlers every [try] of the loops has: cancellation is raised
    again, anything else is logged and slept on. *)
Definition on_error (l : log_entry) (d : sleep_req) (e : exn) : M unit :=
  if is_cancelled e then raise e
  else let* _ := log l in sleep d.

(** *** Snapshot loop *)

Definition ws_error_msg : string := "Unexpected error with WebSocket connection.".

Definition retry_5_warning : log_entry :=
  LogNetwork ws_error_msg
    "Unexpected error with WebSocket connection. Retrying in 5 seconds. Check network connection.".

Definition retry_30_warning : log_entry :=
  LogNetwork ws_error_msg
    "Unexpected error with WebSocket connection. Retrying in 30 seconds. Check network connection.".

Definition snapshot_loop_error : log_entry :=
  LogError "Unexpected error occured listening for orderbook snapshots. Retrying in 5 secs...".

(** The body of the inner [try] of [listen_for_order_book_snapshots]. *)
Definition snapshot_pair_body (trading_pair : string) : M unit :=
  let* snapshot := get_new_order_book trading_pair in
  let* instrument_id := (fun s => (Ok (_trading_pair_id_map s !! trading_pair), s)) in
  let md := {| md_trading_pair := trading_pair; md_instrument_id := instrument_id |} in
  let* snapshot_timestamp := time_ms in
  let snapshot_message :=
    snapshot_message_from_exchange (ContentBook snapshot) snapshot_timestamp (Some md) in
  put_nowait snapshot_message.

(** The inner [try] with its two handlers. *)
Definition snapshot_pair (trading_pair : string) : M unit :=
  try_except (snapshot_pair_body trading_pair) (on_error retry_5_warning (Seconds 5)).

(** One turn of the [while True] of [listen_for_order_book_snapshots]. *)
Definition snapshot_iteration (trading_pairs : list string) : M unit :=
  try_except
    (let* _ := for_each trading_pairs snapshot_pair in sleep UntilNextHour)
    (on_error snapshot_loop_error (Seconds 5)).

Definition listen_for_order_book_snapshots (fuel : nat) (trading_pairs : list string)
    (s : State) : loop_outcome * State :=
  while_true fuel (snapshot_iteration trading_pairs) s.

(** *** Diff loop *)

(** The connection attempt that opens the [async with] block: on success the
    local variable [ws] is bound to the new connection; on failure it keeps
    whatever it held.  The attempt reads the attribute [WSS_URL] of the
    constants, where [ndax_constants.py] defines the dictionary [WSS_URLS]
    only: with the constants as they are, the lookup raises before anything
    is connected, which is one of the [ConnectRaises] outcomes. *)
Definition ws_connect : M (nat * ws_session) :=
  fun s =>
    match ws_in s with
    | [] => (Raise (ClientError "connection failed"), s)
    | ConnectRaises e :: rest => (Raise e, set_ws rest (ws s) s)
    | Connected h sess :: rest => (Ok (h, sess), set_ws rest (Some h) s)
    end.

(** [ws_adapter.send_request]: the request is written to the connection,
    which may raise. *)
Definition send_request (r : ws_request) (outcome : option exn) : M unit :=
  fun s =>
    (match outcome with Some e => Raise e | None => Ok tt end,
     set_ws_sent (ws_sent s ++ [r]) s).

(** The [for] loop that subscribes every tracked pair, against the outcomes
    the connection has in store for the requests. *)
Fixpoint subscribe (trading_pairs : list string) (outcomes : list (option exn)) : M unit :=
  match trading_pairs with
  | [] => ret tt
  | tp :: tps =>
      let* _ :=
        send_request
          {| endpoint_name := CONSTANTS.WS_ORDER_BOOK_CHANNEL; pair := tp; Depth := 99999 |}
          (hd None outcomes) in
      subscribe tps (tl outcomes)
  end.

(** [max] of a list of integers. *)
Definition py_max (l : list Z) : M Z :=
  match l with
  | [] => raise (ValueError "max() arg is an empty sequence")
  | x :: l' => ret (fold_left Z.max l' x)
  end.

Definition relevant_event (msg_event : string) : bool :=
  String.eqb msg_event CONSTANTS.WS_ORDER_BOOK_CHANNEL
  || String.eqb msg_event CONSTANTS.WS_ORDER_BOOK_L2_UPDATE_EVENT.

(** The body of the [async for] of [listen_for_order_book_diffs]. *)
Definition handle_message (raw_msg : option ws_frame) : M unit :=
  match raw_msg with
  | None => raise (ValueError "Expected object or value")
  | Some msg =>
      let msg_event := frame_n msg in
      if negb (relevant_event msg_event) then ret tt
      else
        let* msg_data :=
          match frame_o msg with
          | Some d => ret d
          | None => raise (ValueError "Expected object or value")
          end in
        let* msg_timestamp := py_max (map actionDateTime msg_data) in
        let content := ContentData msg_data in
        if String.eqb msg_event CONSTANTS.WS_ORDER_BOOK_CHANNEL then
          put_nowait (snapshot_message_from_exchange content msg_timestamp None)
        else if String.eqb msg_event CONSTANTS.WS_ORDER_BOOK_L2_UPDATE_EVENT then
          put_nowait (diff_message_from_exchange content msg_timestamp None)
        else ret tt
  end.

(** [async for raw_msg in ws_adapter.iter_messages()] *)
Fixpoint iter_messages (events : list ws_event) : M unit :=
  match events with
  | [] => ret tt
  | WsRaises e :: _ => raise e
  | WsMessage raw_msg :: rest =>
      let* _ := handle_message raw_msg in iter_messages rest
  end.

Definition close_connection (h : nat) : M unit :=
  fun s => (Ok tt, set_ws_closed (ws_closed s ++ [h]) s).

(** [await ws.close()] in the [finally] block: [ws] is read as a local
    variable. *)
Definition ws_close : M unit :=
  fun s =>
    match ws s with
    | Some h => close_connection h s
    | None => (Raise (UnboundLocalError "ws"), s)
    end.

(** The [async with] block: the connection is closed on the way out. *)
Definition diff_session (trading_pairs : list string) : M unit :=
  let* c := ws_connect in
  try_finally
    (let* _ := subscribe trading_pairs (send_results (snd c)) in
     iter_messages (inbound (snd c)))
    (close_connection (fst c)).

(** One turn of the [while True] of [listen_for_order_book_diffs]. *)
Definition diff_iteration (trading_pairs : list string) : M unit :=
  try_finally
    (try_except (diff_session trading_pairs) (on_error retry_30_warning (Seconds 30)))
    ws_close.

(** [ws] is a local variable of the coroutine: unbound when it starts. *)
Definition listen_for_order_book_diffs (fuel : nat) (trading_pairs : list string)
    (s : State) : loop_outcome * State :=
  while_true fuel (diff_iteration trading_pairs) (set_ws (ws_in s) None s).

(** ** Example states *)

Definition idle : State :=
  {| _trading_pair_id_map := ∅; http_in := []; http_log := []; sleep_in := [];
     sleeps := []; clock := 0; logs := []; output := []; ws_in := []; ws := None;
     ws_sent := []; ws_closed := [] |}.

Definition with_replies (l : list http_outcome) : State := set_http l [] idle.

Definition btc_cad : instrument :=
  {| Product1Symbol := Some "BTC"; Product2Symbol := Some "CAD"; InstrumentId := Some 1 |}.

Definition reply_200 (j : json) : http_outcome :=
  HttpReply {| status := 200; body := Some j |}.

Definition reply_error (code : Z) : http_outcome :=
  HttpReply {| status := code; body := Some (JOther "Internal Server Error") |}.

(** ** Predicates and inputs used by the statements *)

(** A computation keeps the relation [R] when every run of it relates the
    state it started from to the state it ended in. *)
Definition keeps (R : State -> State -> Prop) {A} (m : M A) : Prop :=
  forall s, R s (snd (m s)).

(** A refresh was unsuccessful when it raised, or when the reply it consumed
    did not have status 200. *)
Definition refresh_unsuccessful (s : State) (r : result unit) : bool :=
  match r with
  | Raise _ => true
  | Ok _ =>
      match http_in s with
      | HttpReply rep :: _ => negb (status rep =? 200)%Z
      | _ => false
      end
  end.

(** A directory in which a first refresh has cached BTC-CAD, with a reply of
    status 500 in store for the next one. *)
Definition cached_then_500 : State :=
  snd (init_trading_pair_ids
         (with_replies [reply_200 (JInstruments [btc_cad]); reply_error 500])).

(** The same, with a connection failure in store. *)
Definition cached_then_down : State :=
  snd (init_trading_pair_ids
         (with_replies [reply_200 (JInstruments [btc_cad]);
                        HttpRaises (ClientError "Cannot connect to host")])).

(** The request/response call did not succeed: the transport raised, or the
    reply has a status other than 200. *)
Definition call_unsuccessful (o : http_outcome) : bool :=
  match o with
  | HttpRaises _ => true
  | HttpReply rep => negb (status rep =? 200)%Z
  end.

(** The message type the listener builds for a relevant event name. *)
Definition message_for (msg_event : string) (es : list NdaxOrderBookEntry) (t : Z)
    : OrderBookMessage :=
  if String.eqb msg_event CONSTANTS.WS_ORDER_BOOK_CHANNEL
  then snapshot_message_from_exchange (ContentData es) t None
  else diff_message_from_exchange (ContentData es) t None.

Definition entry_at (t : Z) : NdaxOrderBookEntry :=
  {| side := 0; price := Q2Qc (100 # 1); quantity := Q2Qc (2 # 1); actionDateTime := t |}.

Definition update_frame : ws_frame :=
  {| frame_n := "Level2UpdateEvent";
     frame_o := Some [entry_at 1626788175000; entry_at 1626788175416; entry_at 1626788175100] |}.

(** From [s] to [s'] the queue only grew, by messages that satisfy [P]. *)
Definition grows (P : OrderBookMessage -> Prop) (s s' : State) : Prop :=
  exists new, output s' = output s ++ new /\ Forall P new.

(** The message holds at least one entry. *)
Definition has_entries (m : OrderBookMessage) : Prop := entries m <> [].

Definition empty_snapshot_frame : ws_frame :=
  {| frame_n := "SubscribeLevel2"; frame_o := Some [] |}.

(** A connection that delivers an empty initial state and then an update. *)
Definition empty_then_update : State :=
  set_ws [Connected 7%nat {| send_results := [];
                         inbound := [WsMessage (Some empty_snapshot_frame);
                                     WsMessage (Some update_frame)] |};
          Connected 8%nat {| send_results := [];
                         inbound := [WsMessage (Some update_frame)] |}]
         None idle.

(** The frame carries what its event name calls for: a decodable, non-empty
    batch when the event is one of the two order-book events. *)
Definition carries_batch (msg : ws_frame) : bool :=
  negb (relevant_event (frame_n msg))
  || match frame_o msg with
     | Some (_ :: _) => true
     | _ => false
     end.

Definition ping_frame : ws_frame := {| frame_n := "Ping"; frame_o := None |}.

Definition snapshot_frame : ws_frame :=
  {| frame_n := "SubscribeLevel2"; frame_o := Some [entry_at 1626788175000] |}.

(** From [s] to [s'] the local variable [ws] did not become unbound. *)
Definition stays_bound (s s' : State) : Prop := ws s <> None -> ws s' <> None.

(** The first attempt to connect is refused. *)
Definition connection_refused : State :=
  set_ws [ConnectRaises (ClientError "Connection refused")] None idle.

Definition eth_cad : instrument :=
  {| Product1Symbol := Some "ETH"; Product2Symbol := Some "CAD"; InstrumentId := Some 2 |}.

(** A cycle in which the refresh for BTC-CAD is answered with status 500, and
    the fetch for ETH-CAD goes through. *)
Definition one_failing_pair : State :=
  with_replies [reply_error 500;
                reply_200 (JInstruments [btc_cad; eth_cad]);
                reply_200 (JEntries [entry_at 1626788175000])].

Definition level (sd : Z) (p q : Z) (t : Z) : NdaxOrderBookEntry :=
  {| side := sd; price := Q2Qc (p # 1); quantity := Q2Qc (q # 1); actionDateTime := t |}.

(** The book of the first scenario of the spec: a bid of 2 at 100 and an ask
    of 3 at 101, at update id 10. *)
Definition book_at_10 : OrderBookState :=
  applySnapshot empty_book
    (snapshot_message_from_exchange (ContentData [level 0 100 2 10; level 1 101 3 10]) 10 None).

Definition stale_diff : OrderBookMessage :=
  diff_message_from_exchange (ContentData [level 0 100 0 5; level 1 102 7 5]) 5 None.

(** ** The other coroutines of the data source *)

(** The list comprehension of [fetch_trading_pairs]: one name per instrument,
    in the order of the reply. *)
Fixpoint pair_names (l : list instrument) : M (list string) :=
  match l with
  | [] => ret []
  | i :: l' =>
      let* p1 := subscript (Product1Symbol i) "Product1Symbol" in
      let* p2 := subscript (Product2Symbol i) "Product2Symbol" in
      let* names := pair_names l' in
      ret (String.append p1 (String.append "-" p2) :: names)
  end.

Definition fetch_trading_pairs : M (list string) :=
  let* response := client_get CONSTANTS.MARKETS_URL [("OMSId", 1)] in
  if (status response =? 200)%Z then
    let* resp_json := response_json response in
    let* l := iter_instruments resp_json in
    pair_names l
  else ret [].

Section LastTradedPrices.
(** The reply of [GetLevel1] is read through [float(resp_json["LastTradedPx"])].
    The documents of [json] do not describe that reply, so the reading is a
    parameter: the price found in a decoded document, or the exception the
    subscript or the conversion raises. *)
Variable Float : Type.
Variable LastTradedPx : json -> result Float.

(** The [for] loop of [get_last_traded_prices]. *)
Fixpoint last_traded_prices (trading_pairs : list string) (results : gmap string Float)
    : M (gmap string Float) :=
  match trading_pairs with
  | [] => ret results
  | trading_pair :: rest =>
      let* id := resolve trading_pair in
      let* response :=
        client_get CONSTANTS.LAST_TRADE_PRICE_URL [("OMSId", 1); ("InstrumentId", id)] in
      if (status response =? 200)%Z then
        let* resp_json := response_json response in
        let* px := (fun s => (LastTradedPx resp_json, s)) in
        last_traded_prices rest (<[trading_pair := px]> results)
      else last_traded_prices rest results
  end.

Definition get_last_traded_prices (trading_pairs : list string) : M (gmap string Float) :=
  let* _ := init_trading_pair_ids in
  last_traded_prices trading_pairs ∅.
End LastTradedPrices.

(** *** Vocabulary for the statements about the directory *)

(** The key and the value an instrument contributes to the directory, when
    its three fields are present. *)
Definition pair_of (i : instrument) : option (string * Z) :=
  match Product1Symbol i, Product2Symbol i, InstrumentId i with
  | Some p1, Some p2, Some id => Some (String.append p1 (String.append "-" p2), id)
  | _, _, _ => None
  end.

(** The name of an instrument, when its two symbols are present. *)
Definition name_of (i : instrument) : option string :=
  match Product1Symbol i, Product2Symbol i with
  | Some p1, Some p2 => Some (String.append p1 (String.append "-" p2))
  | _, _ => None
  end.

(** The first key the loop of [init_trading_pair_ids] finds missing. *)
Definition missing_key (i : instrument) : option string :=
  match Product1Symbol i, Product2Symbol i, InstrumentId i with
  | None, _, _ => Some "Product1Symbol"
  | Some _, None, _ => Some "Product2Symbol"
  | Some _, Some _, None => Some "InstrumentId"
  | Some _, Some _, Some _ => None
  end.

(** The request every refresh of the directory issues. *)
Definition markets_request : request :=
  {| url := CONSTANTS.MARKETS_URL; params := [("OMSId", 1)] |}.

(** The request of a snapshot fetch for the instrument [id]. *)
Definition order_book_request (id : Z) : request :=
  {| url := CONSTANTS.ORDER_BOOK_URL;
     params := [("OMSId", 1); ("InstrumentId", id); ("Depth", 999999)] |}.

(** What the loop of [init_trading_pair_ids] does to [results] for one
    instrument that has its three fields. *)
Definition install (results : gmap string Z) (i : instrument) : gmap string Z :=
  match pair_of i with
  | Some (k, id) => <[k := id]> results
  | None => results
  end.

Definition complete (i : instrument) : Prop := exists kv, pair_of i = Some kv.

Definition named (i : instrument) : Prop := exists n, name_of i = Some n.

Definition btc_cad_relisted : instrument :=
  {| Product1Symbol := Some "BTC"; Product2Symbol := Some "CAD"; InstrumentId := Some 5 |}.

(** A directory that holds XRP-CAD, about to be refreshed by a reply that
    lists BTC-CAD twice. *)
Definition stale_directory : State :=
  set_trading_pair_id_map {[ "XRP-CAD" := 9 ]}
    (with_replies [reply_200 (JInstruments [btc_cad; eth_cad; btc_cad_relisted])]).

Definition no_second_symbol : instrument :=
  {| Product1Symbol := Some "LTC"; Product2Symbol := None; InstrumentId := Some 3 |}.

Definition no_instrument_id : instrument :=
  {| Product1Symbol := Some "LTC"; Product2Symbol := Some "CAD"; InstrumentId := None |}.

(** A refresh that lists BTC-CAD and ETH-CAD, followed by the book of the
    instrument asked for. *)
Definition two_listed_then_book : State :=
  with_replies [reply_200 (JInstruments [btc_cad; eth_cad]);
                reply_200 (JEntries [entry_at 1626788175000; entry_at 1626788175416])].

(** A reading of the [GetLevel1] reply for the examples: every document
    carries the price 41000. *)
Definition px_41000 (j : json) : result Z := Ok 41000.

(** Prices are asked for BTC-CAD and ETH-CAD; the request for ETH-CAD is
    answered with status 503. *)
Definition second_price_unavailable : State :=
  with_replies [reply_200 (JInstruments [btc_cad; eth_cad]);
                reply_200 (JOther "level1");
                reply_error 503].

(** A message of the snapshot loop: tagged Snapshot, with the metadata of a
    tracked pair and the instrument id the directory gave for it. *)
Definition snapshot_of_tracked (trading_pairs : list string) (m : OrderBookMessage) : Prop :=
  msg_type m = SNAPSHOT
  /\ exists tp id,
       In tp trading_pairs
       /\ msg_metadata m = Some {| md_trading_pair := tp; md_instrument_id := Some id |}.

(** The network is down and the task is cancelled during its first sleep. *)
Definition cancelled_while_waiting : State := set_sleep [true] [] 0 idle.

(** *** Vocabulary for the statements about the diff loop *)

(** The subscription request sent for a tracked pair. *)
Definition subscription (tp : string) : ws_request :=
  {| endpoint_name := CONSTANTS.WS_ORDER_BOOK_CHANNEL; pair := tp; Depth := 99999 |}.

(** What runs inside the [async with] block on a connection. *)
Definition session_body (trading_pairs : list string) (sess : ws_session) : M unit :=
  let* _ := subscribe trading_pairs (send_results sess) in
  iter_messages (inbound sess).

(** The message a frame gives rise to, if any. *)
Definition frame_messages (msg : ws_frame) : list OrderBookMessage :=
  if relevant_event (frame_n msg) then
    match frame_o msg with
    | Some (e :: es) =>
        [message_for (frame_n msg) (e :: es)
           (fold_left Z.max (map actionDateTime es) (actionDateTime e))]
    | _ => []
    end
  else [].

Definition event_messages (ev : ws_event) : list OrderBookMessage :=
  match ev with
  | WsMessage (Some msg) => frame_messages msg
  | _ => []
  end.

(** An inbound event the listener gets through without an exception: a
    decoded frame that carries a batch when its event calls for one. *)
Definition clean_event (ev : ws_event) : Prop :=
  exists msg, ev = WsMessage (Some msg) /\ carries_batch msg = true.

(** From [s] to [s'] neither the local variable [ws] nor the record of closed
    connections changed. *)
Definition same_connection (s s' : State) : Prop :=
  ws s' = ws s /\ ws_closed s' = ws_closed s.

(** From [s] to [s'] no subscription request was sent. *)
Definition same_sent (s s' : State) : Prop := ws_sent s' = ws_sent s.

(** A first connection that delivers a snapshot, a ping and an update and
    then ends; nothing is scripted after it. *)
Definition one_clean_session : State :=
  set_ws [Connected 3%nat {| send_results := [None; None];
                             inbound := [WsMessage (Some snapshot_frame);
                                         WsMessage (Some ping_frame);
                                         WsMessage (Some update_frame)] |}]
         None idle.

(** A first connection on which the second frame does not decode. *)
Definition one_broken_session : State :=
  set_ws [Connected 4%nat {| send_results := [];
                             inbound := [WsMessage (Some snapshot_frame);
                                         WsMessage None;
                                         WsMessage (Some update_frame)] |}]
         None idle.

(** The session of [one_broken_session], with the task cancelled during the
    sleep that follows the failure. *)
Definition broken_then_cancelled : State := set_sleep [true] [] 0 one_broken_session.



(** * Properties *)

(** ** Instrument directory *)

Lemma resolve_state (p : string) (s : State) : snd (resolve p s) = s.
Proof. unfold resolve. destruct (_trading_pair_id_map s !! p); reflexivity. Qed.

Lemma init_trading_pair_ids_not_200 (s : State) (rep : http_response)
    (rest : list http_outcome) :
  http_in s = HttpReply rep :: rest ->
  status rep <> 200 ->
  init_trading_pair_ids s =
    (Ok tt,
     set_trading_pair_id_map ∅
       (set_http rest (http_log s ++ [{| url := CONSTANTS.MARKETS_URL; params := [("OMSId", 1)] |}])
          (set_trading_pair_id_map ∅ s))).
Proof.
  intros Hin Hst.
  unfold init_trading_pair_ids, bind, client_get. cbn [http_in set_trading_pair_id_map].
  rewrite Hin. apply Z.eqb_neq in Hst. rewrite Hst. reflexivity.
Qed.

Lemma collect_instruments_state (l : list instrument) (acc : gmap string Z) (s : State) :
  snd (collect_instruments l acc s) = s.
Proof.
  revert acc. induction l as [|i l IH]; intros acc; [reflexivity|].
  cbn [collect_instruments]. unfold bind, subscript.
  destruct (Product1Symbol i); [|reflexivity].
  destruct (Product2Symbol i); [|reflexivity].
  destruct (InstrumentId i); [|reflexivity].
  cbn. apply IH.
Qed.

(** Whenever a refresh raises, the class attribute is the dictionary that was
    cleared on entry. *)
Lemma init_trading_pair_ids_raise (s s' : State) (e : exn) :
  init_trading_pair_ids s = (Raise e, s') -> _trading_pair_id_map s' = ∅.
Proof.
  unfold init_trading_pair_ids, bind, client_get. cbn [http_in set_trading_pair_id_map].
  destruct (http_in s) as [|[rep|e0] rest].
  - intros [= <- <-]. reflexivity.
  - destruct (status rep =? 200)%Z.
    + unfold response_json. destruct (body rep) as [j|].
      * unfold ret at 1. unfold iter_instruments.
        destruct j as [l|l|t].
        -- unfold ret at 1.
           match goal with |- context [collect_instruments l ∅ ?st] =>
             pose proof (collect_instruments_state l ∅ st) as Hst;
             destruct (collect_instruments l ∅ st) as [[m|e1] st1] end.
           ++ discriminate.
           ++ cbn in Hst. subst st1. intros [= <- <-]. reflexivity.
        -- destruct l; [discriminate|]. intros [= <- <-]. reflexivity.
        -- intros [= <- <-]. reflexivity.
      * intros [= <- <-]. reflexivity.
    + discriminate.
  - intros [= <- <-]. reflexivity.
Qed.

(** C1, as stated, does not hold: with BTC-CAD cached by an earlier refresh,
    a refresh answered with status 500 leaves BTC-CAD unresolvable. *)
Lemma refresh_failure_loses_cache :
  ~ (forall (s s' : State) (r : result unit) (p : string) (id : Z),
        init_trading_pair_ids s = (r, s') ->
        refresh_unsuccessful s r = true ->
        _trading_pair_id_map s !! p = Some id ->
        _trading_pair_id_map s' !! p = Some id).
Proof.
  intros H.
  specialize (H cached_then_500 (snd (init_trading_pair_ids cached_then_500))
                (Ok tt) "BTC-CAD" 1).
  assert (Hnone : _trading_pair_id_map (snd (init_trading_pair_ids cached_then_500))
                    !! "BTC-CAD" = None) by (vm_compute; reflexivity).
  rewrite Hnone in H.
  discriminate H; vm_compute; reflexivity.
Qed.

(** C1, amended: an unsuccessful refresh (one that raises, or one answered
    with a status other than 200) leaves the cached mapping empty, whatever
    it held before. *)
Theorem refresh_failure_empties_cache (s s' : State) (r : result unit) :
  init_trading_pair_ids s = (r, s') ->
  refresh_unsuccessful s r = true ->
  _trading_pair_id_map s' = ∅.
Proof.
  intros Hrun Hfail. destruct r as [[]|e].
  - unfold refresh_unsuccessful in Hfail.
    destruct (http_in s) as [|[rep|e0] rest] eqn:Hin; try discriminate.
    apply negb_true_iff, Z.eqb_neq in Hfail.
    rewrite (init_trading_pair_ids_not_200 s rep rest Hin Hfail) in Hrun.
    injection Hrun as <-. reflexivity.
  - eapply init_trading_pair_ids_raise; eassumption.
Qed.

Lemma refresh_failure_empties_cache_witness :
  _trading_pair_id_map cached_then_down !! "BTC-CAD" = Some 1
  /\ fst (init_trading_pair_ids cached_then_down)
     = Raise (ClientError "Cannot connect to host")
  /\ _trading_pair_id_map (snd (init_trading_pair_ids cached_then_down)) = ∅.
Proof.
  split; [vm_compute; reflexivity|]. split; [vm_compute; reflexivity|].
  apply (refresh_failure_empties_cache cached_then_down _
           (Raise (ClientError "Cannot connect to host"))).
  - vm_compute; reflexivity.
  - reflexivity.
Defined.

(** C3, as stated, does not hold: a refresh answered with status 500
    completes successfully. *)
Lemma refresh_not_200_completes :
  fst (init_trading_pair_ids (with_replies [reply_error 500])) = Ok tt.
Proof. vm_compute. reflexivity. Qed.

(** C3, amended: a refresh whose call does not succeed fails only when the
    transport raised, and then with the exception of the transport; answered
    with a status other than 200 it completes successfully.  Either way the
    mapping is left empty. *)
Theorem refresh_outcome_by_transport (s : State) (o : http_outcome)
    (rest : list http_outcome) :
  http_in s = o :: rest ->
  call_unsuccessful o = true ->
  fst (init_trading_pair_ids s)
  = match o with HttpRaises e => Raise e | HttpReply _ => Ok tt end
  /\ _trading_pair_id_map (snd (init_trading_pair_ids s)) = ∅.
Proof.
  intros Hin Hbad. destruct o as [rep|e].
  - apply negb_true_iff, Z.eqb_neq in Hbad.
    rewrite (init_trading_pair_ids_not_200 s rep rest Hin Hbad).
    split; reflexivity.
  - unfold init_trading_pair_ids, bind, client_get.
    cbn [http_in set_trading_pair_id_map]. rewrite Hin. split; reflexivity.
Qed.

Lemma refresh_outcome_by_transport_witness :
  (fst (init_trading_pair_ids (with_replies [HttpRaises (ClientError "timeout")]))
   = Raise (ClientError "timeout")
   /\ _trading_pair_id_map
        (snd (init_trading_pair_ids (with_replies [HttpRaises (ClientError "timeout")]))) = ∅)
  /\ (fst (init_trading_pair_ids cached_then_500) = Ok tt
      /\ _trading_pair_id_map (snd (init_trading_pair_ids cached_then_500)) = ∅).
Proof.
  split.
  - apply (refresh_outcome_by_transport
             (with_replies [HttpRaises (ClientError "timeout")])
             (HttpRaises (ClientError "timeout")) []); reflexivity.
  - apply (refresh_outcome_by_transport cached_then_500 (reply_error 500) []);
      vm_compute; reflexivity.
Defined.

(** C4: after a refresh answered with the single instrument BTC/CAD with id
    1, BTC-CAD resolves to 1 and every other pair raises [KeyError]; a lookup
    leaves the state as it found it: no request is issued and no reply
    consumed. *)
Theorem refresh_then_resolve (s : State) (rest : list http_outcome) :
  http_in s = reply_200 (JInstruments [btc_cad]) :: rest ->
  exists s1,
    init_trading_pair_ids s = (Ok tt, s1)
    /\ resolve "BTC-CAD" s1 = (Ok 1, s1)
    /\ (forall p, p <> "BTC-CAD" -> resolve p s1 = (Raise (KeyError p), s1))
    /\ (forall p, http_log (snd (resolve p s1)) = http_log s1
                  /\ http_in (snd (resolve p s1)) = http_in s1).
Proof.
  intros Hin.
  unfold init_trading_pair_ids, bind, client_get.
  cbn [http_in set_trading_pair_id_map]. rewrite Hin.
  eexists. split; [reflexivity|].
  unfold resolve. cbn [_trading_pair_id_map set_trading_pair_id_map].
  change (String.append "BTC" (String.append "-" "CAD")) with "BTC-CAD".
  split; [|split].
  - rewrite lookup_insert_eq. reflexivity.
  - intros p Hp. rewrite lookup_insert_ne by congruence.
    rewrite lookup_empty. reflexivity.
  - intros p.
    match goal with |- context [?m !! p] => destruct (m !! p) end;
      split; reflexivity.
Qed.

Lemma refresh_then_resolve_witness :
  exists s1,
    init_trading_pair_ids (with_replies [reply_200 (JInstruments [btc_cad])]) = (Ok tt, s1)
    /\ resolve "BTC-CAD" s1 = (Ok 1, s1)
    /\ resolve "ETH-CAD" s1 = (Raise (KeyError "ETH-CAD"), s1).
Proof.
  destruct (refresh_then_resolve (with_replies [reply_200 (JInstruments [btc_cad])]) [])
    as (s1 & H1 & H2 & H3 & _); [reflexivity|].
  exists s1. split; [exact H1|]. split; [exact H2|].
  apply H3. discriminate.
Defined.

(** ** Snapshot fetcher *)



(** X24: a fetch returns data only when both of its requests, the refresh
    and the order-book request, were answered with status 200: a status
    other than 200 on either never ends in a result. *)
Lemma get_order_book_data_ok (trading_pair : string) (s s' : State)
    (d : list NdaxOrderBookEntry) :
  get_order_book_data trading_pair s = (Ok d, s') ->
  exists r1 r2 rest,
    http_in s = HttpReply r1 :: HttpReply r2 :: rest
    /\ status r1 = 200 /\ status r2 = 200.
Proof.
  unfold get_order_book_data, bind at 1.
  destruct (init_trading_pair_ids s) as [[[]|e0] s1] eqn:Hinit; [|discriminate].
  revert Hinit. unfold init_trading_pair_ids, bind, client_get.
  cbn [http_in set_trading_pair_id_map].
  destruct (http_in s) as [|[r1|e1] rest1]; [discriminate| |discriminate].
  destruct (status r1 =? 200)%Z eqn:H1.
  - unfold response_json. destruct (body r1) as [j|]; [|discriminate].
    unfold ret at 1. unfold iter_instruments.
    assert (Hl : forall l, (let (r, s2) := collect_instruments l ∅
                   (set_http rest1 (http_log s ++ [{| url := CONSTANTS.MARKETS_URL;
                                                     params := [("OMSId", 1)] |}])
                      (set_trading_pair_id_map ∅ s)) in
                 match r with
                 | Ok a => (Ok tt, set_trading_pair_id_map a s2)
                 | Raise e => (Raise e, s2)
                 end) = (Ok tt, s1) -> http_in s1 = rest1).
    { intros l.
      match goal with |- context [collect_instruments l ∅ ?st] =>
        pose proof (collect_instruments_state l ∅ st) as Hst;
        destruct (collect_instruments l ∅ st) as [[m|e2] st1] end;
        [|discriminate].
      cbn in Hst. subst st1. intros [= <-]. reflexivity. }
    intros Hinit.
    assert (Hrest : http_in s1 = rest1).
    { destruct j as [l|l|t].
      - unfold ret at 1 in Hinit. apply (Hl l). exact Hinit.
      - destruct l; [|discriminate]. unfold ret at 1 in Hinit. apply (Hl []). exact Hinit.
      - discriminate. }
    unfold resolve. destruct (_trading_pair_id_map s1 !! trading_pair); [|discriminate].
    rewrite Hrest. destruct rest1 as [|[r2|e2] rest2]; [discriminate| |discriminate].
    destruct (status r2 =? 200)%Z eqn:H2.
    + intros _. exists r1, r2, rest2.
      apply Z.eqb_eq in H1, H2. repeat split; assumption.
    + cbn [negb]. unfold response_json. destruct (body r2); discriminate.
  - intros [= <-]. unfold resolve. cbn [_trading_pair_id_map set_trading_pair_id_map].
    rewrite lookup_empty. discriminate.
Qed.

Lemma get_order_book_data_ok_witness :
  exists r1 r2 rest,
    http_in two_listed_then_book = HttpReply r1 :: HttpReply r2 :: rest
    /\ status r1 = 200 /\ status r2 = 200.
Proof.
  apply (get_order_book_data_ok "ETH-CAD" two_listed_then_book
           (snd (get_order_book_data "ETH-CAD" two_listed_then_book))
           [entry_at 1626788175000; entry_at 1626788175416]).
  vm_compute; reflexivity.
Defined.


(** ** Diff listener *)

Lemma fold_max_ge_init (l : list Z) (x : Z) : x <= fold_left Z.max l x.
Proof.
  revert x. induction l as [|y l IH]; intros x; cbn; [lia|].
  specialize (IH (Z.max x y)). lia.
Qed.

Lemma fold_max_upper (l : list Z) (x y : Z) : In y l -> y <= fold_left Z.max l x.
Proof.
  revert x. induction l as [|z l IH]; intros x; cbn; [tauto|].
  intros [->|Hin]; [|auto].
  pose proof (fold_max_ge_init l (Z.max x y)). lia.
Qed.

Lemma fold_max_attained (l : list Z) (x : Z) :
  fold_left Z.max l x = x \/ In (fold_left Z.max l x) l.
Proof.
  revert x. induction l as [|z l IH]; intros x; cbn; [auto|].
  destruct (IH (Z.max x z)) as [H|H]; [|auto].
  rewrite H. destruct (Z.max_spec x z) as [[_ ->]|[_ ->]]; auto.
Qed.

(** What [py_max] returns on a non-empty list is its maximum. *)
Lemma py_max_spec (l : list Z) (s : State) :
  l <> [] ->
  exists t, py_max l s = (Ok t, s) /\ In t l /\ (forall y, In y l -> y <= t).
Proof.
  destruct l as [|x l]; [congruence|]. intros _.
  exists (fold_left Z.max l x). split; [reflexivity|]. split.
  - destruct (fold_max_attained l x) as [H|H]; [rewrite H; left; reflexivity|right; exact H].
  - intros y [<-|Hy]; [apply fold_max_ge_init|apply fold_max_upper; exact Hy].
Qed.

Lemma handle_message_relevant (msg : ws_frame) (es : list NdaxOrderBookEntry) (s : State) :
  relevant_event (frame_n msg) = true ->
  frame_o msg = Some es ->
  es <> [] ->
  exists t,
    handle_message (Some msg) s
    = (Ok tt, set_output (output s ++ [message_for (frame_n msg) es t]) s)
    /\ In t (map actionDateTime es)
    /\ (forall y, In y (map actionDateTime es) -> y <= t).
Proof.
  intros Hrel Ho Hne.
  assert (Hne' : map actionDateTime es <> []) by (destruct es; [congruence|discriminate]).
  destruct (py_max_spec _ s Hne') as (t & Hmax & Hin & Hub).
  exists t. split; [|split; assumption].
  unfold handle_message. rewrite Hrel. cbn [negb]. rewrite Ho.
  unfold bind. cbn [ret]. unfold ret at 1. rewrite Hmax.
  unfold message_for. unfold relevant_event in Hrel.
  destruct (String.eqb (frame_n msg) CONSTANTS.WS_ORDER_BOOK_CHANNEL); [reflexivity|].
  cbn [orb] in Hrel. rewrite Hrel. reflexivity.
Qed.

Lemma handle_message_irrelevant (msg : ws_frame) (s : State) :
  relevant_event (frame_n msg) = false ->
  handle_message (Some msg) s = (Ok tt, s).
Proof. intros Hrel. unfold handle_message. rewrite Hrel. reflexivity. Qed.

(** C2: for a frame of either order-book event with a non-empty batch, the
    listener emits one message over the batch whose update id is the largest
    [actionDateTime] of the batch: it is the timestamp of one of the entries
    and no entry has a larger one. *)
Theorem diff_message_update_id_is_max (msg : ws_frame) (es : list NdaxOrderBookEntry)
    (s : State) :
  relevant_event (frame_n msg) = true ->
  frame_o msg = Some es ->
  es <> [] ->
  exists m,
    handle_message (Some msg) s = (Ok tt, set_output (output s ++ [m]) s)
    /\ entries m = es
    /\ msg_type m = (if String.eqb (frame_n msg) CONSTANTS.WS_ORDER_BOOK_CHANNEL
                     then SNAPSHOT else DIFF)
    /\ (exists e, In e es /\ actionDateTime e = update_id m)
    /\ (forall e, In e es -> actionDateTime e <= update_id m).
Proof.
  intros Hrel Ho Hne.
  destruct (handle_message_relevant msg es s Hrel Ho Hne) as (t & Hrun & Hin & Hub).
  exists (message_for (frame_n msg) es t).
  split; [exact Hrun|].
  assert (Hfields : entries (message_for (frame_n msg) es t) = es
                    /\ update_id (message_for (frame_n msg) es t) = t
                    /\ msg_type (message_for (frame_n msg) es t)
                       = (if String.eqb (frame_n msg) CONSTANTS.WS_ORDER_BOOK_CHANNEL
                          then SNAPSHOT else DIFF)).
  { unfold message_for.
    destruct (String.eqb (frame_n msg) CONSTANTS.WS_ORDER_BOOK_CHANNEL);
      repeat split; reflexivity. }
  destruct Hfields as (He & Hu & Ht). rewrite He, Hu, Ht.
  split; [reflexivity|]. split; [reflexivity|]. split.
  - apply in_map_iff in Hin. destruct Hin as (e & Heq & Hine). exists e. auto.
  - intros e Hine. apply Hub. apply in_map. exact Hine.
Qed.

Lemma diff_message_update_id_is_max_witness :
  exists m,
    handle_message (Some update_frame) idle = (Ok tt, set_output [m] idle)
    /\ msg_type m = DIFF
    /\ (forall e, In e [entry_at 1626788175000; entry_at 1626788175416;
                        entry_at 1626788175100] ->
                  actionDateTime e <= update_id m).
Proof.
  destruct (diff_message_update_id_is_max update_frame
              [entry_at 1626788175000; entry_at 1626788175416; entry_at 1626788175100]
              idle)
    as (m & Hrun & _ & Hty & _ & Hub).
  - reflexivity.
  - reflexivity.
  - discriminate.
  - exists m. split; [exact Hrun|]. split; [exact Hty | exact Hub].
Defined.

(** *** Relations kept along a run of the listener *)

Section Kept.
Variable R : State -> State -> Prop.
Hypothesis R_refl : forall s, R s s.
Hypothesis R_trans : forall s1 s2 s3, R s1 s2 -> R s2 s3 -> R s1 s3.

Lemma keeps_ret {A} (a : A) : keeps R (ret a).
Proof. intros s. apply R_refl. Qed.

Lemma keeps_raise {A} (e : exn) : keeps R (@raise A e).
Proof. intros s. apply R_refl. Qed.

Lemma keeps_bind {A B} (m : M A) (k : A -> M B) :
  keeps R m -> (forall a, keeps R (k a)) -> keeps R (bind m k).
Proof.
  intros Hm Hk s. unfold bind. specialize (Hm s).
  destruct (m s) as [[a|e] s1]; cbn in Hm.
  - eapply R_trans; [exact Hm|apply Hk].
  - exact Hm.
Qed.

Lemma keeps_try_except {A} (body : M A) (handler : exn -> M A) :
  keeps R body -> (forall e, keeps R (handler e)) -> keeps R (try_except body handler).
Proof.
  intros Hb Hh s. unfold try_except. specialize (Hb s).
  destruct (body s) as [[a|e] s1]; cbn in Hb.
  - exact Hb.
  - eapply R_trans; [exact Hb|apply Hh].
Qed.

Lemma keeps_try_finally {A} (body : M A) (final : M unit) :
  keeps R body -> keeps R final -> keeps R (try_finally body final).
Proof.
  intros Hb Hf s. unfold try_finally. specialize (Hb s).
  destruct (body s) as [r s1]; cbn in Hb. specialize (Hf s1).
  destruct (final s1) as [[u|e] s2]; cbn in Hf |- *;
    eapply R_trans; eassumption.
Qed.

Lemma kept_while_true (fuel : nat) (body : M unit) (s : State) :
  keeps R body -> R s (snd (while_true fuel body s)).
Proof.
  intros Hb. revert s. induction fuel as [|fuel IH]; intros s; cbn [while_true].
  - apply R_refl.
  - specialize (Hb s). destruct (body s) as [[u|e] s1]; cbn in Hb.
    + eapply R_trans; [exact Hb|apply IH].
    + exact Hb.
Qed.

(** The effects a turn of the diff loop is made of. *)
Hypothesis keeps_sleep : forall d, keeps R (sleep d).
Hypothesis keeps_log : forall l, keeps R (log l).
Hypothesis keeps_ws_connect : keeps R ws_connect.
Hypothesis keeps_send_request : forall r o, keeps R (send_request r o).
Hypothesis keeps_close_connection : forall h, keeps R (close_connection h).
Hypothesis keeps_ws_close : keeps R ws_close.
Hypothesis keeps_handle_message : forall raw, keeps R (handle_message raw).

Lemma keeps_on_error (l : log_entry) (d : sleep_req) (e : exn) : keeps R (on_error l d e).
Proof.
  unfold on_error. destruct (is_cancelled e); [apply keeps_raise|].
  apply keeps_bind; [apply keeps_log|intros _; apply keeps_sleep].
Qed.

Lemma keeps_subscribe (tps : list string) (outcomes : list (option exn)) :
  keeps R (subscribe tps outcomes).
Proof.
  revert outcomes. induction tps as [|tp tps IH]; intros outcomes; cbn [subscribe].
  - apply keeps_ret.
  - apply keeps_bind; [apply keeps_send_request|intros _; apply IH].
Qed.

Lemma keeps_iter_messages (events : list ws_event) : keeps R (iter_messages events).
Proof.
  induction events as [|[raw|e] rest IH]; cbn [iter_messages].
  - apply keeps_ret.
  - apply keeps_bind; [apply keeps_handle_message|intros _; exact IH].
  - apply keeps_raise.
Qed.

Lemma keeps_diff_session (tps : list string) : keeps R (diff_session tps).
Proof.
  unfold diff_session. apply keeps_bind; [apply keeps_ws_connect|].
  intros c. apply keeps_try_finally; [|apply keeps_close_connection].
  apply keeps_bind; [apply keeps_subscribe|].
  intros _. apply keeps_iter_messages.
Qed.

Lemma keeps_diff_attempt (tps : list string) :
  keeps R (try_except (diff_session tps) (on_error retry_30_warning (Seconds 30))).
Proof.
  apply keeps_try_except; [apply keeps_diff_session|intros e; apply keeps_on_error].
Qed.

Lemma keeps_diff_iteration (tps : list string) : keeps R (diff_iteration tps).
Proof.
  unfold diff_iteration.
  apply keeps_try_finally; [apply keeps_diff_attempt|apply keeps_ws_close].
Qed.
End Kept.

(** **** The queue only grows *)

Lemma grows_same P (s s' : State) : output s' = output s -> grows P s s'.
Proof. intros H. exists []. rewrite app_nil_r. split; [exact H|constructor]. Qed.

Lemma grows_refl P (s : State) : grows P s s.
Proof. apply grows_same. reflexivity. Qed.

Lemma grows_trans P (s1 s2 s3 : State) : grows P s1 s2 -> grows P s2 s3 -> grows P s1 s3.
Proof.
  intros (n1 & H1 & F1) (n2 & H2 & F2). exists (n1 ++ n2).
  rewrite H2, H1, app_assoc. split; [reflexivity|].
  apply Forall_app. split; assumption.
Qed.

Lemma sleep_output (d : sleep_req) (s : State) : output (snd (sleep d s)) = output s.
Proof. unfold sleep. destruct (sleep_in s) as [|[] rest]; reflexivity. Qed.

Lemma ws_connect_output (s : State) : output (snd (ws_connect s)) = output s.
Proof. unfold ws_connect. destruct (ws_in s) as [|[e|h sess] rest]; reflexivity. Qed.

Lemma ws_close_output (s : State) : output (snd (ws_close s)) = output s.
Proof. unfold ws_close. destruct (ws s); reflexivity. Qed.

Lemma grows_listen_for_order_book_diffs P (fuel : nat) (tps : list string) (s : State) :
  (forall raw, keeps (grows P) (handle_message raw)) ->
  grows P s (snd (listen_for_order_book_diffs fuel tps s)).
Proof.
  intros Hhandle. unfold listen_for_order_book_diffs.
  apply (grows_trans P s (set_ws (ws_in s) None s)); [apply grows_same; reflexivity|].
  apply (kept_while_true (grows P)); [apply grows_refl|apply grows_trans|].
  apply keeps_diff_iteration;
    [apply grows_refl | apply grows_trans | intros d s0 | intros l s0 | intros s0
    | intros r o s0 | intros h s0 | intros s0 | exact Hhandle];
    apply grows_same;
    [apply sleep_output | reflexivity | apply ws_connect_output | reflexivity
    | reflexivity | apply ws_close_output].
Qed.

Lemma handle_message_has_entries (raw : option ws_frame) :
  keeps (grows has_entries) (handle_message raw).
Proof.
  intros s. destruct raw as [msg|]; [|apply grows_same; reflexivity].
  destruct (relevant_event (frame_n msg)) eqn:Hrel.
  - destruct (frame_o msg) as [es|] eqn:Ho.
    + destruct es as [|e es].
      * unfold handle_message. rewrite Hrel, Ho. apply grows_same. reflexivity.
      * destruct (handle_message_relevant msg (e :: es) s Hrel Ho) as (t & Hrun & _);
          [discriminate|].
        rewrite Hrun. exists [message_for (frame_n msg) (e :: es) t].
        split; [reflexivity|]. constructor; [|constructor].
        unfold has_entries, message_for.
        destruct (String.eqb (frame_n msg) CONSTANTS.WS_ORDER_BOOK_CHANNEL); discriminate.
    + unfold handle_message. rewrite Hrel, Ho. apply grows_same. reflexivity.
  - rewrite (handle_message_irrelevant msg s Hrel). apply grows_same. reflexivity.
Qed.

(** C10: a frame of either order-book event whose batch is empty makes the
    per-frame processing raise ([max] of an empty list) with nothing emitted;
    and whatever the listener runs into, every message it adds to the queue
    holds at least one entry. *)
Theorem diff_listener_never_emits_empty (msg : ws_frame) (s0 : State)
    (fuel : nat) (trading_pairs : list string) (s : State) :
  relevant_event (frame_n msg) = true ->
  frame_o msg = Some [] ->
  handle_message (Some msg) s0
  = (Raise (ValueError "max() arg is an empty sequence"), s0)
  /\ exists new,
       output (snd (listen_for_order_book_diffs fuel trading_pairs s)) = output s ++ new
       /\ Forall (fun m => entries m <> []) new.
Proof.
  intros Hrel Ho. split.
  - unfold handle_message. rewrite Hrel, Ho. reflexivity.
  - apply (grows_listen_for_order_book_diffs has_entries), handle_message_has_entries.
Qed.

Lemma diff_listener_never_emits_empty_witness :
  handle_message (Some empty_snapshot_frame) idle
  = (Raise (ValueError "max() arg is an empty sequence"), idle)
  /\ exists new,
       output (snd (listen_for_order_book_diffs 2 ["BTC-CAD"] empty_then_update))
       = output empty_then_update ++ new
       /\ Forall (fun m => entries m <> []) new.
Proof.
  apply (diff_listener_never_emits_empty empty_snapshot_frame idle 2 ["BTC-CAD"]
           empty_then_update); reflexivity.
Defined.

Example empty_then_update_run :
  let r := listen_for_order_book_diffs 2 ["BTC-CAD"] empty_then_update in
  fst r = StillRunning
  /\ map msg_type (output (snd r)) = [DIFF]
  /\ sleeps (snd r) = [Seconds 30]
  /\ ws_closed (snd r) = [7; 7; 8; 8]%nat.
Proof. vm_compute. repeat split; reflexivity. Qed.

(** C6, as stated, does not hold: a frame of the initial-state event with an
    empty batch raises, and no Snapshot message is emitted. *)
Lemma initial_state_frame_without_entries :
  frame_n empty_snapshot_frame = CONSTANTS.WS_ORDER_BOOK_CHANNEL
  /\ handle_message (Some empty_snapshot_frame) idle
     = (Raise (ValueError "max() arg is an empty sequence"), idle)
  /\ output idle = [].
Proof. repeat split; reflexivity. Qed.

Lemma app_singleton_self {A} (l : list A) (x : A) : l <> l ++ [x].
Proof.
  intros H. apply (f_equal (@length A)) in H. rewrite length_app in H. cbn in H. lia.
Qed.

(** C6, amended: for every decoded frame that carries a non-empty batch when
    its event is one of the two order-book events, the listener processes
    the frame without error; it emits a Snapshot message exactly when the
    event name is [SubscribeLevel2], a Diff message exactly when it is
    [Level2UpdateEvent], and for any other event name leaves everything as it
    was, whatever the payload. *)
Theorem diff_listener_classifies (msg : ws_frame) (s : State) :
  carries_batch msg = true ->
  exists s',
    handle_message (Some msg) s = (Ok tt, s')
    /\ (frame_n msg = CONSTANTS.WS_ORDER_BOOK_CHANNEL
        <-> exists m, output s' = output s ++ [m] /\ msg_type m = SNAPSHOT)
    /\ (frame_n msg = CONSTANTS.WS_ORDER_BOOK_L2_UPDATE_EVENT
        <-> exists m, output s' = output s ++ [m] /\ msg_type m = DIFF)
    /\ (frame_n msg <> CONSTANTS.WS_ORDER_BOOK_CHANNEL ->
        frame_n msg <> CONSTANTS.WS_ORDER_BOOK_L2_UPDATE_EVENT ->
        s' = s).
Proof.
  intros Hwf. unfold carries_batch in Hwf.
  destruct (relevant_event (frame_n msg)) eqn:Hrel; cbn [negb orb] in Hwf.
  - destruct (frame_o msg) as [[|e es]|] eqn:Ho; try discriminate.
    destruct (handle_message_relevant msg (e :: es) s Hrel Ho) as (t & Hrun & _);
      [discriminate|].
    eexists. split; [exact Hrun|]. cbn [output set_output].
    unfold relevant_event in Hrel. unfold message_for.
    destruct (String.eqb_spec (frame_n msg) CONSTANTS.WS_ORDER_BOOK_CHANNEL) as [Hn|Hn].
    + split; [|split].
      * split; [intros _; eexists; split; reflexivity | intros _; exact Hn].
      * split.
        -- intros Hn'. rewrite Hn in Hn'. discriminate.
        -- intros (m & Hm & Hty). apply app_inj_tail in Hm.
           destruct Hm as [_ <-]. discriminate.
      * intros Hc. contradiction.
    + cbn [orb] in Hrel. apply String.eqb_eq in Hrel.
      split; [|split].
      * split; [intros Hc; contradiction|].
        intros (m & Hm & Hty). apply app_inj_tail in Hm.
        destruct Hm as [_ <-]. discriminate.
      * split; [intros _; eexists; split; reflexivity | intros _; exact Hrel].
      * intros _ Hc. contradiction.
  - exists s. split; [apply handle_message_irrelevant; exact Hrel|].
    unfold relevant_event in Hrel. apply orb_false_iff in Hrel.
    destruct Hrel as [H1 H2]. apply String.eqb_neq in H1, H2.
    split; [|split].
    + split; [intros Hc; contradiction|].
      intros (m & Hm & _). exfalso. exact (app_singleton_self _ _ Hm).
    + split; [intros Hc; contradiction|].
      intros (m & Hm & _). exfalso. exact (app_singleton_self _ _ Hm).
    + reflexivity.
Qed.

Lemma diff_listener_classifies_witness :
  (exists s', handle_message (Some snapshot_frame) idle = (Ok tt, s')
              /\ exists m, output s' = output idle ++ [m] /\ msg_type m = SNAPSHOT)
  /\ (exists s', handle_message (Some update_frame) idle = (Ok tt, s')
                 /\ exists m, output s' = output idle ++ [m] /\ msg_type m = DIFF)
  /\ handle_message (Some ping_frame) idle = (Ok tt, idle).
Proof.
  split; [|split].
  - destruct (diff_listener_classifies snapshot_frame idle) as (s' & Hrun & Hsnap & _);
      [reflexivity|].
    exists s'. split; [exact Hrun|]. apply Hsnap. reflexivity.
  - destruct (diff_listener_classifies update_frame idle) as (s' & Hrun & _ & Hdiff & _);
      [reflexivity|].
    exists s'. split; [exact Hrun|]. apply Hdiff. reflexivity.
  - destruct (diff_listener_classifies ping_frame idle) as (s' & Hrun & _ & _ & Hsame);
      [reflexivity|].
    rewrite Hrun. rewrite Hsame; [reflexivity|discriminate|discriminate].
Defined.

(** ** Synchronization loops *)

Lemma sleep_raises_cancelled (d : sleep_req) (s s' : State) (e : exn) :
  sleep d s = (Raise e, s') -> e = CancelledError.
Proof.
  unfold sleep. destruct (sleep_in s) as [|[] rest]; intros [= <- <-] || discriminate.
  reflexivity.
Qed.

Lemma on_error_raises_cancelled (l : log_entry) (d : sleep_req) (e e' : exn)
    (s s' : State) :
  on_error l d e s = (Raise e', s') -> e' = CancelledError.
Proof.
  unfold on_error. destruct e; cbn [is_cancelled];
    try (unfold bind, log; intros H; eapply sleep_raises_cancelled; exact H).
  intros [= <- <-]. reflexivity.
Qed.

Lemma try_except_raises_cancelled (body : M unit) (l : log_entry) (d : sleep_req)
    (s s' : State) (e : exn) :
  try_except body (on_error l d) s = (Raise e, s') -> e = CancelledError.
Proof.
  unfold try_except. destruct (body s) as [[a|e0] s1]; [discriminate|].
  apply on_error_raises_cancelled.
Qed.

Lemma while_true_exit (fuel : nat) (body : M unit) (s s' : State) (e : exn) :
  (forall s1 s2 e1, body s1 = (Raise e1, s2) -> e1 = CancelledError) ->
  while_true fuel body s = (Exited e, s') -> e = CancelledError.
Proof.
  intros Hbody. revert s. induction fuel as [|fuel IH]; intros s; cbn [while_true].
  - discriminate.
  - destruct (body s) as [[u|e1] s1] eqn:Hb.
    + apply IH.
    + intros [= <- <-]. eapply Hbody. exact Hb.
Qed.

(** The snapshot loop leaves its [while True] only by cancellation. *)
Lemma snapshot_loop_exits_by_cancellation (fuel : nat) (tps : list string)
    (s s' : State) (e : exn) :
  listen_for_order_book_snapshots fuel tps s = (Exited e, s') -> e = CancelledError.
Proof.
  apply while_true_exit. intros s1 s2 e1.
  unfold snapshot_iteration. apply try_except_raises_cancelled.
Qed.

(** **** Once bound, [ws] stays bound *)

Lemma stays_bound_same (s s' : State) : ws s' = ws s -> stays_bound s s'.
Proof. intros H Hb. rewrite H. exact Hb. Qed.

Lemma handle_message_ws (raw : option ws_frame) (s : State) :
  ws (snd (handle_message raw s)) = ws s.
Proof.
  destruct raw as [msg|]; [|reflexivity]. unfold handle_message.
  destruct (relevant_event (frame_n msg)); [|reflexivity]. cbn [negb].
  unfold bind. destruct (frame_o msg) as [es|]; [|reflexivity]. unfold ret at 1.
  unfold py_max. destruct (map actionDateTime es); [reflexivity|]. unfold ret at 1.
  destruct (String.eqb _ _); [reflexivity|].
  destruct (String.eqb _ _); reflexivity.
Qed.

Lemma diff_attempt_stays_bound (tps : list string) :
  keeps stays_bound (try_except (diff_session tps) (on_error retry_30_warning (Seconds 30))).
Proof.
  apply keeps_diff_attempt.
  - intros s Hb. exact Hb.
  - intros s1 s2 s3 H12 H23 Hb. auto.
  - intros d s. apply stays_bound_same. unfold sleep.
    destruct (sleep_in s) as [|[] rest]; reflexivity.
  - intros l s. apply stays_bound_same. reflexivity.
  - intros s. unfold ws_connect.
    destruct (ws_in s) as [|[e|h sess] rest]; cbn; intros Hb; [exact Hb..|discriminate].
  - intros r o s. apply stays_bound_same. reflexivity.
  - intros h s. apply stays_bound_same. reflexivity.
  - intros raw s. apply stays_bound_same, handle_message_ws.
Qed.

(** A turn of the diff loop raises by cancellation, or because its [finally]
    block reads [ws] while it is unbound; with [ws] bound it is cancellation
    only, and [ws] is still bound afterwards. *)
Lemma diff_iteration_raises (tps : list string) (s s' : State) (e : exn) :
  diff_iteration tps s = (Raise e, s') ->
  e = CancelledError \/ (e = UnboundLocalError "ws" /\ ws s = None).
Proof.
  unfold diff_iteration, try_finally.
  pose proof (diff_attempt_stays_bound tps s) as Hb.
  destruct (try_except (diff_session tps) (on_error retry_30_warning (Seconds 30)) s)
    as [r s1] eqn:Hbody.
  cbn [snd] in Hb. unfold ws_close, close_connection.
  destruct (ws s1) as [h|] eqn:Hws.
  - intros [= -> <-]. left. eapply try_except_raises_cancelled. exact Hbody.
  - intros [= <- <-]. right. split; [reflexivity|].
    unfold stays_bound in Hb. destruct (ws s) eqn:Hs; [|reflexivity].
    exfalso. apply Hb; congruence.
Qed.

Lemma diff_iteration_stays_bound (tps : list string) : keeps stays_bound (diff_iteration tps).
Proof.
  intros s. unfold diff_iteration, try_finally.
  pose proof (diff_attempt_stays_bound tps s) as Hb.
  destruct (try_except (diff_session tps) (on_error retry_30_warning (Seconds 30)) s)
    as [r s1].
  cbn [snd] in Hb. unfold stays_bound in *. unfold ws_close, close_connection.
  destruct (ws s1) as [h|] eqn:Hws; cbn; intros Hs.
  - rewrite Hws. discriminate.
  - rewrite Hws. apply Hb. exact Hs.
Qed.

Lemma diff_loop_bound_exits_by_cancellation (fuel : nat) (tps : list string)
    (s s' : State) (e : exn) :
  ws s <> None ->
  while_true fuel (diff_iteration tps) s = (Exited e, s') -> e = CancelledError.
Proof.
  revert s. induction fuel as [|fuel IH]; intros s Hb; cbn [while_true]; [discriminate|].
  pose proof (diff_iteration_stays_bound tps s Hb) as Hb'.
  destruct (diff_iteration tps s) as [[u|e1] s1] eqn:Hit; cbn [snd] in Hb'.
  - apply IH. exact Hb'.
  - intros [= <- <-]. destruct (diff_iteration_raises tps s s1 e1 Hit) as [H|[_ H]];
      [exact H|contradiction].
Qed.

(** However the first attempt to connect fails, the coroutine ends with
    [UnboundLocalError]: by then nothing was ever assigned to [ws]. *)
Lemma diff_loop_first_connect_raises (fuel : nat) (tps : list string) (s : State)
    (e : exn) (rest : list connect_outcome) :
  ws_in s = ConnectRaises e :: rest ->
  fst (listen_for_order_book_diffs (S fuel) tps s) = Exited (UnboundLocalError "ws").
Proof.
  intros Hin.
  unfold listen_for_order_book_diffs. cbn [while_true].
  unfold diff_iteration, try_finally, try_except, diff_session, bind, ws_connect.
  cbn [ws_in set_ws ws]. rewrite Hin.
  unfold on_error. destruct (is_cancelled e).
  - reflexivity.
  - unfold bind, log, sleep. cbn [sleep_in set_logs set_ws].
    destruct (sleep_in s) as [|[] tl]; reflexivity.
Qed.

(** C7, at the input that refutes it for the diff loop: when the first
    attempt to connect is refused, the failure is logged and slept on for 30
    seconds, and then the [finally] block ends the loop with
    [UnboundLocalError]. *)
Theorem diff_loop_exits_on_refused_connection :
  fst (listen_for_order_book_diffs 1 ["BTC-CAD"] connection_refused)
  = Exited (UnboundLocalError "ws")
  /\ logs (snd (listen_for_order_book_diffs 1 ["BTC-CAD"] connection_refused))
     = [retry_30_warning]
  /\ sleeps (snd (listen_for_order_book_diffs 1 ["BTC-CAD"] connection_refused))
     = [Seconds 30]
  /\ ws_in (snd (listen_for_order_book_diffs 1 ["BTC-CAD"] connection_refused)) = [].
Proof. vm_compute. repeat split; reflexivity. Qed.

(** A cycle over the tracked pairs stops short only by cancellation. *)
Lemma snapshot_cycle_raises_cancelled (tps : list string) (s s' : State) (e : exn) :
  for_each tps snapshot_pair s = (Raise e, s') -> e = CancelledError.
Proof.
  revert s. induction tps as [|tp tps IH]; intros s; cbn [for_each]; [discriminate|].
  unfold bind. destruct (snapshot_pair tp s) as [[u|e1] s1] eqn:Hp.
  - apply IH.
  - intros [= <- <-]. unfold snapshot_pair in Hp.
    eapply try_except_raises_cancelled. exact Hp.
Qed.

(** C8: when the body of the inner [try] fails for a pair with anything but
    a cancellation, and the task is not cancelled during the wait, the
    warning is logged, 5 seconds are slept, and the cycle goes on with the
    pairs that follow; nothing but a cancellation ends the cycle before its
    last pair. *)
Theorem snapshot_pair_failure_continues (trading_pair : string) (rest : list string)
    (s s1 : State) (e : exn) :
  snapshot_pair_body trading_pair s = (Raise e, s1) ->
  is_cancelled e = false ->
  hd false (sleep_in s1) = false ->
  for_each (trading_pair :: rest) snapshot_pair s
  = for_each rest snapshot_pair
      (set_sleep (tl (sleep_in s1)) (sleeps s1 ++ [Seconds 5]) (clock s1 + 5000)
         (set_logs (logs s1 ++ [retry_5_warning]) s1))
  /\ forall e' s',
       for_each (trading_pair :: rest) snapshot_pair s = (Raise e', s') ->
       e' = CancelledError.
Proof.
  intros Hbody Hnc Hsleep. split; [|intros e' s'; apply snapshot_cycle_raises_cancelled].
  cbn [for_each]. unfold bind at 1. unfold snapshot_pair, try_except.
  rewrite Hbody. unfold on_error. rewrite Hnc.
  unfold bind, log, sleep. cbn [sleep_in set_logs sleeps clock wake_time].
  destruct (sleep_in s1) as [|[] tl]; cbn in Hsleep |- *; try discriminate; reflexivity.
Qed.

Lemma snapshot_pair_failure_continues_witness :
  snapshot_pair_body "BTC-CAD" one_failing_pair
  = (Raise (KeyError "BTC-CAD"), snd (snapshot_pair_body "BTC-CAD" one_failing_pair))
  /\ for_each ["BTC-CAD"; "ETH-CAD"] snapshot_pair one_failing_pair
     = for_each ["ETH-CAD"] snapshot_pair
         (set_sleep (tl (sleep_in (snd (snapshot_pair_body "BTC-CAD" one_failing_pair))))
            (sleeps (snd (snapshot_pair_body "BTC-CAD" one_failing_pair)) ++ [Seconds 5])
            (clock (snd (snapshot_pair_body "BTC-CAD" one_failing_pair)) + 5000)
            (set_logs (logs (snd (snapshot_pair_body "BTC-CAD" one_failing_pair))
                       ++ [retry_5_warning])
               (snd (snapshot_pair_body "BTC-CAD" one_failing_pair)))).
Proof.
  split; [vm_compute; reflexivity|].
  apply (snapshot_pair_failure_continues "BTC-CAD" ["ETH-CAD"] one_failing_pair
           (snd (snapshot_pair_body "BTC-CAD" one_failing_pair)) (KeyError "BTC-CAD")).
  - vm_compute; reflexivity.
  - reflexivity.
  - vm_compute; reflexivity.
Defined.

Example one_failing_pair_cycle :
  let r := for_each ["BTC-CAD"; "ETH-CAD"] snapshot_pair one_failing_pair in
  fst r = Ok tt
  /\ logs (snd r) = [retry_5_warning]
  /\ sleeps (snd r) = [Seconds 5]
  /\ map msg_metadata (output (snd r))
     = [Some {| md_trading_pair := "ETH-CAD"; md_instrument_id := Some 2 |}]
  /\ map url (http_log (snd r)) = ["GetInstruments"; "GetInstruments"; "GetL2Snapshot"].
Proof. vm_compute. repeat split; reflexivity. Qed.

(** The diff loop leaves its [while True] by cancellation, or by the
    [UnboundLocalError] of its [finally] block. *)
Lemma diff_loop_exits (fuel : nat) (tps : list string) (s s' : State) (e : exn) :
  listen_for_order_book_diffs fuel tps s = (Exited e, s') ->
  e = CancelledError \/ e = UnboundLocalError "ws".
Proof.
  unfold listen_for_order_book_diffs. generalize (set_ws (ws_in s) None s). clear s.
  induction fuel as [|fuel IH]; intros s; cbn [while_true]; [discriminate|].
  destruct (diff_iteration tps s) as [[u|e1] s1] eqn:Hit.
  - apply IH.
  - intros [= <- <-]. destruct (diff_iteration_raises tps s s1 e1 Hit) as [H|[H _]]; auto.
Qed.

(** ** Order book state *)

(** C9: a Diff message whose update id is below the current update id of the
    state leaves the state as it is: both side maps and the update id. *)
Theorem applyDiff_stale (st : OrderBookState) (m : OrderBookMessage) :
  update_id m < updateId st ->
  applyDiff st m = st.
Proof.
  intros Hold. unfold applyDiff.
  apply Z.ltb_lt in Hold. rewrite Hold. reflexivity.
Qed.

Lemma applyDiff_stale_witness : applyDiff book_at_10 stale_diff = book_at_10.
Proof. apply (applyDiff_stale book_at_10 stale_diff). reflexivity. Defined.

Example applyDiff_fresh :
  let st := applyDiff book_at_10
              (diff_message_from_exchange (ContentData [level 0 100 0 11]) 11 None) in
  bids st !! Q2Qc (100 # 1) = None
  /\ this <$> asks st !! Q2Qc (101 # 1) = Some (3 # 1)%Q
  /\ updateId st = 11.
Proof. repeat split; vm_compute; reflexivity. Qed.

(** * Further properties of the data source *)

(** ** Directory refresh *)

Lemma pair_of_name (i : instrument) (p : string) (id : Z) :
  pair_of i = Some (p, id) -> name_of i = Some p.
Proof.
  unfold pair_of, name_of.
  destruct (Product1Symbol i), (Product2Symbol i), (InstrumentId i); try discriminate.
  intros [= <- _]. reflexivity.
Qed.

Lemma collect_instruments_complete (l : list instrument) (acc : gmap string Z) (s : State) :
  Forall complete l ->
  collect_instruments l acc s = (Ok (fold_left install l acc), s).
Proof.
  intros Hl. revert acc. induction Hl as [|i l [[k id] Hi] _ IH]; intros acc; [reflexivity|].
  cbn [collect_instruments fold_left]. unfold install at 2. rewrite Hi.
  unfold pair_of in Hi. unfold bind, subscript.
  destruct (Product1Symbol i) as [p1|]; [|discriminate].
  destruct (Product2Symbol i) as [p2|]; [|discriminate].
  destruct (InstrumentId i) as [id'|]; [|discriminate].
  injection Hi as <- <-. unfold ret at 1 2 3. apply IH.
Qed.

Lemma install_all_miss (l : list instrument) (acc : gmap string Z) (p : string) :
  (forall j, In j l -> name_of j <> Some p) ->
  fold_left install l acc !! p = acc !! p.
Proof.
  revert acc. induction l as [|i l IH]; intros acc Hmiss; [reflexivity|].
  cbn [fold_left]. rewrite IH by (intros j Hj; apply Hmiss; right; exact Hj).
  unfold install. destruct (pair_of i) as [[k id]|] eqn:Hi; [|reflexivity].
  apply lookup_insert_ne. intros ->.
  apply (Hmiss i); [left; reflexivity|]. eapply pair_of_name. exact Hi.
Qed.

Lemma install_all_last (l1 l2 : list instrument) (i : instrument) (acc : gmap string Z)
    (p : string) (id : Z) :
  pair_of i = Some (p, id) ->
  (forall j, In j l2 -> name_of j <> Some p) ->
  fold_left install (l1 ++ i :: l2) acc !! p = Some id.
Proof.
  intros Hi Hmiss. rewrite fold_left_app. cbn [fold_left].
  rewrite install_all_miss by exact Hmiss.
  unfold install at 1. rewrite Hi. apply lookup_insert_eq.
Qed.

Lemma install_all_origin (l : list instrument) (acc : gmap string Z) (p : string) (id : Z) :
  fold_left install l acc !! p = Some id ->
  acc !! p = Some id \/ exists i, In i l /\ pair_of i = Some (p, id).
Proof.
  revert acc. induction l as [|i l IH]; intros acc; cbn [fold_left]; [auto|].
  intros H. destruct (IH _ H) as [Hacc|(j & Hj & Hpj)].
  - unfold install in Hacc. destruct (pair_of i) as [[k id']|] eqn:Hi; [|auto].
    destruct (decide (k = p)) as [->|Hne].
    + rewrite lookup_insert_eq in Hacc. injection Hacc as ->.
      right. exists i. split; [left; reflexivity|exact Hi].
    + rewrite lookup_insert_ne in Hacc by exact Hne. auto.
  - right. exists j. split; [right; exact Hj|exact Hpj].
Qed.

Lemma init_trading_pair_ids_complete (s : State) (l : list instrument)
    (rest : list http_outcome) :
  http_in s = reply_200 (JInstruments l) :: rest ->
  Forall complete l ->
  init_trading_pair_ids s
  = (Ok tt,
     set_trading_pair_id_map (fold_left install l ∅)
       (set_http rest (http_log s ++ [markets_request]) (set_trading_pair_id_map ∅ s))).
Proof.
  intros Hin Hl.
  unfold init_trading_pair_ids, bind, client_get.
  cbn [http_in set_trading_pair_id_map]. rewrite Hin. unfold reply_200.
  cbn [status body Z.eqb Pos.eqb response_json]. unfold ret at 1. cbn [iter_instruments].
  unfold ret at 1. rewrite collect_instruments_complete by exact Hl. reflexivity.
Qed.

(** X1: a refresh answered with status 200 and instruments that all have
    their three fields replaces the directory by the reply: a pair resolves
    afterwards only to an id the reply gives it, whatever was cached before,
    and when the reply names a pair more than once its last instrument
    wins. *)
Theorem refresh_installs_reply (s : State) (l : list instrument)
    (rest : list http_outcome) :
  http_in s = reply_200 (JInstruments l) :: rest ->
  Forall complete l ->
  exists s1,
    init_trading_pair_ids s = (Ok tt, s1)
    /\ (forall p id, _trading_pair_id_map s1 !! p = Some id ->
                     exists i, In i l /\ pair_of i = Some (p, id))
    /\ (forall l1 i l2 p id,
          l = l1 ++ i :: l2 ->
          pair_of i = Some (p, id) ->
          (forall j, In j l2 -> name_of j <> Some p) ->
          _trading_pair_id_map s1 !! p = Some id).
Proof.
  intros Hin Hl. eexists. split; [apply init_trading_pair_ids_complete; eassumption|].
  cbn [_trading_pair_id_map set_trading_pair_id_map]. split.
  - intros p id H. destruct (install_all_origin l ∅ p id H) as [Hacc|Hex]; [|exact Hex].
    rewrite lookup_empty in Hacc. discriminate.
  - intros l1 i l2 p id -> Hi Hmiss. apply install_all_last; assumption.
Qed.

Lemma refresh_installs_reply_witness :
  exists s1,
    init_trading_pair_ids stale_directory = (Ok tt, s1)
    /\ _trading_pair_id_map s1 !! "BTC-CAD" = Some 5
    /\ ~ _trading_pair_id_map s1 !! "XRP-CAD" = Some 9.
Proof.
  destruct (refresh_installs_reply stale_directory [btc_cad; eth_cad; btc_cad_relisted] [])
    as (s1 & Hrun & Honly & Hlast).
  - reflexivity.
  - repeat constructor; eexists; reflexivity.
  - exists s1. split; [exact Hrun|]. split.
    + apply (Hlast [btc_cad; eth_cad] btc_cad_relisted [] "BTC-CAD" 5);
        [reflexivity | reflexivity | intros j []].
    + intros H. destruct (Honly _ _ H) as (i & Hi & Hp).
      cbn [In] in Hi. destruct Hi as [<-|[<-|[<-|[]]]]; discriminate Hp.
Defined.

Lemma collect_instruments_incomplete (l1 l2 : list instrument) (i : instrument)
    (k : string) (acc : gmap string Z) (s : State) :
  Forall complete l1 ->
  missing_key i = Some k ->
  collect_instruments (l1 ++ i :: l2) acc s = (Raise (KeyError k), s).
Proof.
  intros Hl1 Hk. revert acc.
  induction Hl1 as [|j l1 [[kj idj] Hj] _ IH]; intros acc.
  - cbn [app collect_instruments]. unfold bind, subscript.
    unfold missing_key in Hk.
    destruct (Product1Symbol i); [|injection Hk as <-; reflexivity].
    destruct (Product2Symbol i); [|injection Hk as <-; reflexivity].
    destruct (InstrumentId i); [discriminate|injection Hk as <-; reflexivity].
  - cbn [app collect_instruments]. unfold pair_of in Hj. unfold bind, subscript.
    destruct (Product1Symbol j); [|discriminate].
    destruct (Product2Symbol j); [|discriminate].
    destruct (InstrumentId j); [|discriminate].
    unfold ret at 1 2 3. apply IH.
Qed.

(** X2: when an instrument of the reply lacks one of its three fields, the
    refresh raises [KeyError] for the first missing key of the first such
    instrument, and nothing of the reply is installed: the directory is left
    empty, also of the instruments that came before. *)
Theorem refresh_incomplete_instrument (s : State) (l1 l2 : list instrument)
    (i : instrument) (k : string) (rest : list http_outcome) :
  http_in s = reply_200 (JInstruments (l1 ++ i :: l2)) :: rest ->
  Forall complete l1 ->
  missing_key i = Some k ->
  exists s1,
    init_trading_pair_ids s = (Raise (KeyError k), s1)
    /\ _trading_pair_id_map s1 = ∅.
Proof.
  intros Hin Hl1 Hk.
  unfold init_trading_pair_ids, bind, client_get.
  cbn [http_in set_trading_pair_id_map]. rewrite Hin. unfold reply_200.
  cbn [status body Z.eqb Pos.eqb response_json]. unfold ret at 1. cbn [iter_instruments].
  unfold ret at 1. rewrite (collect_instruments_incomplete l1 l2 i k) by assumption.
  eexists. split; reflexivity.
Qed.

Lemma refresh_incomplete_instrument_witness :
  exists s1,
    init_trading_pair_ids
      (with_replies [reply_200 (JInstruments [btc_cad; no_second_symbol; eth_cad])])
    = (Raise (KeyError "Product2Symbol"), s1)
    /\ _trading_pair_id_map s1 = ∅.
Proof.
  apply (refresh_incomplete_instrument
           (with_replies [reply_200 (JInstruments [btc_cad; no_second_symbol; eth_cad])])
           [btc_cad] [eth_cad] no_second_symbol "Product2Symbol" []).
  - reflexivity.
  - repeat constructor; eexists; reflexivity.
  - reflexivity.
Defined.

Lemma pair_names_state (l : list instrument) (s : State) : snd (pair_names l s) = s.
Proof.
  induction l as [|i l IH]; [reflexivity|].
  cbn [pair_names]. unfold bind, subscript.
  destruct (Product1Symbol i); [|reflexivity].
  destruct (Product2Symbol i); [|reflexivity].
  unfold ret at 1 2. destruct (pair_names l s) as [[names|e] s2]; cbn in IH |- *; exact IH.
Qed.

Lemma init_trading_pair_ids_effect (s : State) :
  exists r m,
    init_trading_pair_ids s
    = (r, set_trading_pair_id_map m
            (set_http (tl (http_in s)) (http_log s ++ [markets_request])
               (set_trading_pair_id_map ∅ s))).
Proof.
  unfold init_trading_pair_ids, bind, client_get.
  cbn [http_in set_trading_pair_id_map].
  destruct (http_in s) as [|[rep|e] rest];
    [do 2 eexists; reflexivity| |exists (Raise e), ∅; reflexivity].
  destruct (status rep =? 200)%Z; [|do 2 eexists; reflexivity].
  unfold response_json. destruct (body rep) as [j|];
    [|exists (Raise ContentTypeError), ∅; reflexivity].
  unfold ret at 1. unfold iter_instruments.
  destruct j as [l|[|x l]|t];
    [|do 2 eexists; reflexivity|exists (Raise TypeError), ∅; reflexivity
     |exists (Raise TypeError), ∅; reflexivity].
  unfold ret at 1.
  match goal with |- context [collect_instruments l ∅ ?st] =>
    pose proof (collect_instruments_state l ∅ st) as Hst;
    destruct (collect_instruments l ∅ st) as [[m|e1] st1] end;
    cbn in Hst; subst st1; [do 2 eexists; reflexivity|exists (Raise e1), ∅; reflexivity].
Qed.

(** X3: whatever the network does, a refresh issues exactly one request, for
    [GetInstruments] with [OMSId] 1, and consumes at most the one outcome
    that answers it. *)
Theorem refresh_one_request (s : State) :
  http_log (snd (init_trading_pair_ids s)) = http_log s ++ [markets_request]
  /\ http_in (snd (init_trading_pair_ids s)) = tl (http_in s).
Proof.
  destruct (init_trading_pair_ids_effect s) as (r & m & ->). split; reflexivity.
Qed.

(** ** Listing the trading pairs *)

Lemma fetch_trading_pairs_effect (s : State) :
  exists r,
    fetch_trading_pairs s
    = (r, set_http (tl (http_in s)) (http_log s ++ [markets_request]) s).
Proof.
  unfold fetch_trading_pairs, bind, client_get.
  destruct (http_in s) as [|[rep|e] rest]; [eexists; reflexivity| |eexists; reflexivity].
  destruct (status rep =? 200)%Z; [|eexists; reflexivity].
  unfold response_json. destruct (body rep) as [j|]; [|eexists; reflexivity].
  unfold ret at 1. unfold iter_instruments.
  destruct j as [l|[|x l]|t]; try (eexists; reflexivity).
  unfold ret at 1.
  match goal with |- context [pair_names l ?st] =>
    pose proof (pair_names_state l st) as Hst;
    destruct (pair_names l st) as [r st1] end.
  cbn in Hst. subst st1. eexists; reflexivity.
Qed.

(** X4: [fetch_trading_pairs] never touches the directory: whatever it is
    answered, the cached mapping is the one it found, and one request for
    [GetInstruments] was issued. *)
Theorem fetch_trading_pairs_keeps_directory (s : State) :
  _trading_pair_id_map (snd (fetch_trading_pairs s)) = _trading_pair_id_map s
  /\ http_log (snd (fetch_trading_pairs s)) = http_log s ++ [markets_request].
Proof.
  destruct (fetch_trading_pairs_effect s) as (r & ->). split; reflexivity.
Qed.

Lemma pair_names_named (l : list instrument) (s : State) :
  Forall named l ->
  exists names,
    pair_names l s = (Ok names, s)
    /\ Forall2 (fun i n => name_of i = Some n) l names.
Proof.
  intros Hl. induction Hl as [|i l [n Hn] _ (names & Hrun & Hall)].
  - exists []. split; [reflexivity|constructor].
  - exists (n :: names). split; [|constructor; assumption].
    cbn [pair_names]. unfold bind, subscript.
    unfold name_of in Hn.
    destruct (Product1Symbol i) as [p1|]; [|discriminate].
    destruct (Product2Symbol i) as [p2|]; [|discriminate].
    injection Hn as <-. unfold ret at 1 2. rewrite Hrun. reflexivity.
Qed.

Lemma fetch_trading_pairs_named (s : State) (l : list instrument)
    (rest : list http_outcome) :
  http_in s = reply_200 (JInstruments l) :: rest ->
  Forall named l ->
  exists names,
    fetch_trading_pairs s
    = (Ok names, set_http rest (http_log s ++ [markets_request]) s)
    /\ Forall2 (fun i n => name_of i = Some n) l names.
Proof.
  intros Hin Hl.
  unfold fetch_trading_pairs, bind, client_get. rewrite Hin. unfold reply_200.
  cbn [status body Z.eqb Pos.eqb response_json]. unfold ret at 1. cbn [iter_instruments].
  unfold ret at 1.
  destruct (pair_names_named l (set_http rest (http_log s ++ [markets_request]) s) Hl)
    as (names & Hrun & Hall).
  exists names. split; [exact Hrun|exact Hall].
Qed.

(** X5: answered with status 200, [fetch_trading_pairs] lists one name per
    instrument of the reply, in the order of the reply, duplicates included;
    only the two symbols are read, so an instrument without an
    [InstrumentId] is listed all the same. *)
Theorem fetch_trading_pairs_lists_reply (s : State) (l : list instrument)
    (rest : list http_outcome) :
  http_in s = reply_200 (JInstruments l) :: rest ->
  Forall named l ->
  exists names,
    fst (fetch_trading_pairs s) = Ok names
    /\ length names = length l
    /\ forall k i, nth_error l k = Some i -> nth_error names k = name_of i.
Proof.
  intros Hin Hl.
  destruct (fetch_trading_pairs_named s l rest Hin Hl) as (names & Hrun & Hall).
  exists names. rewrite Hrun. split; [reflexivity|]. clear Hrun Hin Hl.
  induction Hall as [|i n l names Hn _ [IHlen IHnth]].
  - split; [reflexivity|]. intros [|k] i H; discriminate H.
  - split; [cbn; congruence|]. intros [|k] j H; cbn in H |- *.
    + injection H as <-. rewrite Hn. reflexivity.
    + apply IHnth. exact H.
Qed.

Lemma fetch_trading_pairs_lists_reply_witness :
  fst (fetch_trading_pairs
         (with_replies [reply_200 (JInstruments [btc_cad; no_instrument_id; btc_cad])]))
  = Ok ["BTC-CAD"; "LTC-CAD"; "BTC-CAD"].
Proof.
  destruct (fetch_trading_pairs_lists_reply
              (with_replies [reply_200 (JInstruments [btc_cad; no_instrument_id; btc_cad])])
              [btc_cad; no_instrument_id; btc_cad] [])
    as (names & Hrun & Hlen & Hnth).
  - reflexivity.
  - repeat constructor; eexists; reflexivity.
  - rewrite Hrun. f_equal.
    pose proof (Hnth 0%nat _ eq_refl) as H0.
    pose proof (Hnth 1%nat _ eq_refl) as H1.
    pose proof (Hnth 2%nat _ eq_refl) as H2.
    destruct names as [|n0 [|n1 [|n2 [|n3 names]]]]; try discriminate Hlen.
    vm_compute in H0, H1, H2. congruence.
Defined.

(** X6: answered with a status other than 200, [fetch_trading_pairs] does
    not fail: it returns the empty list, as it does for an exchange that
    lists no instrument. *)
Theorem fetch_trading_pairs_not_200 (s : State) (rep : http_response)
    (rest : list http_outcome) :
  http_in s = HttpReply rep :: rest ->
  status rep <> 200 ->
  fetch_trading_pairs s = (Ok [], set_http rest (http_log s ++ [markets_request]) s)
  /\ fst (fetch_trading_pairs
            (set_http (reply_200 (JInstruments []) :: rest) (http_log s) s)) = Ok [].
Proof.
  intros Hin Hst. split.
  - unfold fetch_trading_pairs, bind, client_get. rewrite Hin.
    apply Z.eqb_neq in Hst. rewrite Hst. reflexivity.
  - reflexivity.
Qed.

Lemma fetch_trading_pairs_not_200_witness :
  fst (fetch_trading_pairs (with_replies [reply_error 429])) = Ok [].
Proof.
  destruct (fetch_trading_pairs_not_200 (with_replies [reply_error 429])
              {| status := 429; body := Some (JOther "Internal Server Error") |} [])
    as [Hrun _]; [reflexivity|discriminate|].
  rewrite Hrun. reflexivity.
Defined.

Lemma install_all_keeps (l : list instrument) (acc : gmap string Z) (p : string) :
  is_Some (acc !! p) -> is_Some (fold_left install l acc !! p).
Proof.
  revert acc. induction l as [|i l IH]; intros acc Hacc; [exact Hacc|].
  cbn [fold_left]. apply IH. unfold install.
  destruct (pair_of i) as [[k id]|]; [|exact Hacc].
  destruct (decide (k = p)) as [->|Hne].
  - rewrite lookup_insert_eq. eauto.
  - rewrite lookup_insert_ne by exact Hne. exact Hacc.
Qed.

Lemma install_all_named (l : list instrument) (acc : gmap string Z) (p : string)
    (i : instrument) :
  Forall complete l -> In i l -> name_of i = Some p ->
  is_Some (fold_left install l acc !! p).
Proof.
  intros Hl. revert acc. induction Hl as [|j l [[k id] Hj] _ IH]; intros acc Hin Hn.
  - destruct Hin.
  - cbn [fold_left]. destruct Hin as [->|Hin]; [|apply IH; assumption].
    apply install_all_keeps. unfold install. rewrite Hj.
    pose proof (pair_of_name _ _ _ Hj) as Hk. rewrite Hn in Hk. injection Hk as ->.
    rewrite lookup_insert_eq. eauto.
Qed.

Lemma complete_named (i : instrument) : complete i -> named i.
Proof. intros [[k id] H]. exists k. eapply pair_of_name. exact H. Qed.

(** X7: on the same reply of status 200 with complete instruments, the two
    readers of [GetInstruments] agree: a pair is listed by
    [fetch_trading_pairs] exactly when the directory resolves it after
    [init_trading_pair_ids]. *)
Theorem fetch_agrees_with_directory (s : State) (l : list instrument)
    (rest : list http_outcome) :
  http_in s = reply_200 (JInstruments l) :: rest ->
  Forall complete l ->
  exists names s1,
    fst (fetch_trading_pairs s) = Ok names
    /\ init_trading_pair_ids s = (Ok tt, s1)
    /\ forall p, In p names <-> exists id, _trading_pair_id_map s1 !! p = Some id.
Proof.
  intros Hin Hl.
  assert (Hnamed : Forall named l)
    by (eapply Forall_impl; [exact Hl|intros i; apply complete_named]).
  destruct (fetch_trading_pairs_named s l rest Hin Hnamed) as (names & Hrun & Hall).
  exists names. eexists. rewrite Hrun.
  split; [reflexivity|]. split; [apply (init_trading_pair_ids_complete s l rest Hin Hl)|].
  cbn [_trading_pair_id_map set_trading_pair_id_map].
  intros p. split.
  - intros Hp.
    assert (Hex : exists i, In i l /\ name_of i = Some p).
    { clear -Hall Hp. induction Hall as [|i n l names Hn _ IH]; [destruct Hp|].
      destruct Hp as [->|Hp].
      - exists i. split; [left; reflexivity|exact Hn].
      - destruct (IH Hp) as (j & Hj & Hnj). exists j. split; [right; exact Hj|exact Hnj]. }
    destruct Hex as (i & Hi & Hn).
    destruct (install_all_named l ∅ p i Hl Hi Hn) as [id Hid]. exists id. exact Hid.
  - intros [id Hid].
    destruct (install_all_origin l ∅ p id Hid) as [Hacc|(i & Hi & Hp)].
    + rewrite lookup_empty in Hacc. discriminate.
    + apply pair_of_name in Hp. clear -Hall Hi Hp.
      induction Hall as [|j n l names Hn _ IH]; [destruct Hi|].
      destruct Hi as [->|Hi].
      * left. congruence.
      * right. apply IH. exact Hi.
Qed.

Lemma fetch_agrees_with_directory_witness :
  exists names s1,
    fst (fetch_trading_pairs stale_directory) = Ok names
    /\ init_trading_pair_ids stale_directory = (Ok tt, s1)
    /\ forall p, In p names <-> exists id, _trading_pair_id_map s1 !! p = Some id.
Proof.
  apply (fetch_agrees_with_directory stale_directory
           [btc_cad; eth_cad; btc_cad_relisted] []).
  - reflexivity.
  - repeat constructor; eexists; reflexivity.
Defined.

(** ** Snapshot fetch *)

(** X8: when the refresh lists the pair and the order-book request is
    answered with status 200, the fetch returns the entries of that reply as
    they came, having issued two requests: the refresh, then [GetL2Snapshot]
    for the resolved instrument id with depth 999999. *)
Theorem get_order_book_data_returns_reply (trading_pair : string) (s : State)
    (l : list instrument) (es : list NdaxOrderBookEntry) (id : Z)
    (rest : list http_outcome) :
  http_in s = reply_200 (JInstruments l) :: reply_200 (JEntries es) :: rest ->
  Forall complete l ->
  fold_left install l ∅ !! trading_pair = Some id ->
  exists s',
    get_order_book_data trading_pair s = (Ok es, s')
    /\ http_log s' = http_log s ++ [markets_request; order_book_request id]
    /\ http_in s' = rest.
Proof.
  intros Hin Hl Hid.
  unfold get_order_book_data, bind.
  rewrite (init_trading_pair_ids_complete s l _ Hin Hl).
  unfold resolve. cbn [_trading_pair_id_map set_trading_pair_id_map]. rewrite Hid.
  unfold client_get. cbn [http_in set_http set_trading_pair_id_map http_log].
  unfold reply_200. cbn [status body Z.eqb Pos.eqb negb response_json].
  unfold ret at 1. cbn [iter_entries]. eexists. split; [reflexivity|].
  cbn [http_log http_in set_http]. rewrite <- app_assoc. split; reflexivity.
Qed.

Lemma get_order_book_data_returns_reply_witness :
  exists s',
    get_order_book_data "ETH-CAD" two_listed_then_book
    = (Ok [entry_at 1626788175000; entry_at 1626788175416], s')
    /\ http_log s' = [markets_request; order_book_request 2].
Proof.
  destruct (get_order_book_data_returns_reply "ETH-CAD" two_listed_then_book
              [btc_cad; eth_cad] [entry_at 1626788175000; entry_at 1626788175416] 2 [])
    as (s' & Hrun & Hlog & _).
  - reflexivity.
  - repeat constructor; eexists; reflexivity.
  - vm_compute; reflexivity.
  - exists s'. split; [exact Hrun|exact Hlog].
Defined.

(** X9: a fetch for a pair the refreshed directory does not hold raises
    [KeyError] for that pair before any order-book request is issued: the
    refresh is the only request of the fetch. *)
Theorem get_order_book_data_unknown_pair (trading_pair : string) (s s1 : State) :
  init_trading_pair_ids s = (Ok tt, s1) ->
  _trading_pair_id_map s1 !! trading_pair = None ->
  get_order_book_data trading_pair s = (Raise (KeyError trading_pair), s1)
  /\ http_log s1 = http_log s ++ [markets_request].
Proof.
  intros Hinit Hnone. split.
  - unfold get_order_book_data, bind. rewrite Hinit. unfold resolve. rewrite Hnone.
    reflexivity.
  - pose proof (refresh_one_request s) as [Hlog _]. rewrite Hinit in Hlog. exact Hlog.
Qed.

Lemma get_order_book_data_unknown_pair_witness :
  fst (get_order_book_data "XRP-CAD" two_listed_then_book) = Raise (KeyError "XRP-CAD")
  /\ http_log (snd (get_order_book_data "XRP-CAD" two_listed_then_book))
     = [markets_request].
Proof.
  destruct (get_order_book_data_unknown_pair "XRP-CAD" two_listed_then_book
              (snd (init_trading_pair_ids two_listed_then_book)))
    as [Hrun Hlog].
  - vm_compute; reflexivity.
  - vm_compute; reflexivity.
  - rewrite Hrun. split; [reflexivity|exact Hlog].
Defined.

(** X10: when the refresh inside a fetch is answered with a status other
    than 200, the fetch raises [KeyError] for the pair asked for, whichever
    it is; the status of the refresh is not reported, and the outcome in
    store for the order-book request is not consumed. *)
Theorem get_order_book_data_refresh_not_200 (trading_pair : string) (s : State)
    (rep : http_response) (rest : list http_outcome) :
  http_in s = HttpReply rep :: rest ->
  status rep <> 200 ->
  fst (get_order_book_data trading_pair s) = Raise (KeyError trading_pair)
  /\ http_in (snd (get_order_book_data trading_pair s)) = rest
  /\ http_log (snd (get_order_book_data trading_pair s)) = http_log s ++ [markets_request].
Proof.
  intros Hin Hst.
  pose proof (init_trading_pair_ids_not_200 s rep rest Hin Hst) as Hinit.
  destruct (get_order_book_data_unknown_pair trading_pair s _ Hinit) as [Hrun Hlog].
  - cbn [_trading_pair_id_map set_trading_pair_id_map]. apply lookup_empty.
  - rewrite Hrun. cbn [fst snd]. split; [reflexivity|]. split; [reflexivity|exact Hlog].
Qed.

Lemma get_order_book_data_refresh_not_200_witness :
  fst (get_order_book_data "BTC-CAD" one_failing_pair) = Raise (KeyError "BTC-CAD")
  /\ length (http_in (snd (get_order_book_data "BTC-CAD" one_failing_pair))) = 2%nat.
Proof.
  destruct (get_order_book_data_refresh_not_200 "BTC-CAD" one_failing_pair
              {| status := 500; body := Some (JOther "Internal Server Error") |}
              [reply_200 (JInstruments [btc_cad; eth_cad]);
               reply_200 (JEntries [entry_at 1626788175000])])
    as (Hrun & Hin & _); [reflexivity|discriminate|].
  rewrite Hrun, Hin. split; reflexivity.
Defined.

(** ** Last traded prices *)

Section LastTradedPricesFacts.
Variable Float : Type.
Variable LastTradedPx : json -> result Float.

Lemma last_traded_prices_ok (tps : list string) (acc res : gmap string Float)
    (s s' : State) :
  last_traded_prices Float LastTradedPx tps acc s = (Ok res, s') ->
  _trading_pair_id_map s' = _trading_pair_id_map s
  /\ (forall p, In p tps -> exists id, _trading_pair_id_map s !! p = Some id)
  /\ (forall p v, res !! p = Some v -> acc !! p = Some v \/ In p tps).
Proof.
  revert acc s. induction tps as [|tp tps IH]; intros acc s.
  - intros [= <- <-]. split; [reflexivity|]. split; [intros p []|auto].
  - cbn [last_traded_prices]. unfold bind at 1. unfold resolve.
    destruct (_trading_pair_id_map s !! tp) as [id|] eqn:Hid; [|discriminate].
    unfold bind at 1. unfold client_get.
    destruct (http_in s) as [|[rep|e] rest]; [discriminate| |discriminate].
    destruct (status rep =? 200)%Z.
    + unfold bind at 1. unfold response_json.
      destruct (body rep) as [j|]; [|discriminate]. unfold ret at 1.
      unfold bind at 1. destruct (LastTradedPx j) as [px|e]; [|discriminate].
      intros Hrun. destruct (IH _ _ Hrun) as (Hc & Hres & Hkeys).
      cbn [_trading_pair_id_map set_http] in Hc, Hres.
      split; [exact Hc|]. split.
      * intros p [<-|Hp]; [eauto|auto].
      * intros p v Hv. destruct (Hkeys p v Hv) as [Hacc|Hp]; [|right; right; exact Hp].
        destruct (decide (tp = p)) as [->|Hne]; [right; left; reflexivity|].
        rewrite lookup_insert_ne in Hacc by exact Hne. left. exact Hacc.
    + intros Hrun. destruct (IH _ _ Hrun) as (Hc & Hres & Hkeys).
      cbn [_trading_pair_id_map set_http] in Hc, Hres.
      split; [exact Hc|]. split.
      * intros p [<-|Hp]; [eauto|auto].
      * intros p v Hv. destruct (Hkeys p v Hv) as [Hacc|Hp]; [left; exact Hacc|].
        right; right; exact Hp.
Qed.

(** X11: when [get_last_traded_prices] returns, every pair it was asked for
    is one the refreshed directory resolves (a single unknown pair fails the
    whole call), and every price it returns is filed under a pair it was
    asked for. *)
Theorem get_last_traded_prices_keys (trading_pairs : list string)
    (res : gmap string Float) (s s' : State) :
  get_last_traded_prices Float LastTradedPx trading_pairs s = (Ok res, s') ->
  (forall p, In p trading_pairs -> exists id, _trading_pair_id_map s' !! p = Some id)
  /\ (forall p v, res !! p = Some v -> In p trading_pairs).
Proof.
  unfold get_last_traded_prices, bind.
  destruct (init_trading_pair_ids s) as [[[]|e] s1]; [|discriminate].
  intros Hrun. destruct (last_traded_prices_ok _ _ _ _ _ Hrun) as (Hc & Hres & Hkeys).
  split.
  - intros p Hp. rewrite Hc. apply Hres. exact Hp.
  - intros p v Hv. destruct (Hkeys p v Hv) as [Hacc|Hp]; [|exact Hp].
    rewrite lookup_empty in Hacc. discriminate.
Qed.
End LastTradedPricesFacts.

Lemma get_last_traded_prices_keys_witness :
  fst (get_last_traded_prices Z px_41000 ["BTC-CAD"; "ETH-CAD"] second_price_unavailable)
  = Ok {[ "BTC-CAD" := 41000 ]}
  /\ forall p v,
       ({[ "BTC-CAD" := 41000 ]} : gmap string Z) !! p = Some v ->
       In p ["BTC-CAD"; "ETH-CAD"].
Proof.
  split; [vm_compute; reflexivity|].
  apply (get_last_traded_prices_keys Z px_41000 ["BTC-CAD"; "ETH-CAD"]
           {[ "BTC-CAD" := 41000 ]} second_price_unavailable
           (snd (get_last_traded_prices Z px_41000 ["BTC-CAD"; "ETH-CAD"]
                   second_price_unavailable))).
  vm_compute; reflexivity.
Defined.

(** ** Snapshot loop *)

Lemma get_order_book_data_run (trading_pair : string) (s : State) :
  exists r s',
    get_order_book_data trading_pair s = (r, s')
    /\ output s' = output s
    /\ forall es, r = Ok es -> exists id, _trading_pair_id_map s' !! trading_pair = Some id.
Proof.
  unfold get_order_book_data, bind at 1.
  destruct (init_trading_pair_ids_effect s) as (r & m & ->).
  destruct r as [[]|e];
    [|do 2 eexists; split; [reflexivity|split; [reflexivity|discriminate]]].
  unfold bind at 1. unfold resolve.
  cbn [_trading_pair_id_map set_trading_pair_id_map].
  destruct (m !! trading_pair) as [id|] eqn:Hid;
    [|do 2 eexists; split; [reflexivity|split; [reflexivity|discriminate]]].
  unfold bind at 1. unfold client_get. cbn [http_in set_http set_trading_pair_id_map].
  destruct (tl (http_in s)) as [|[rep|e] rest];
    try (do 2 eexists; split; [reflexivity|split; [reflexivity|discriminate]]).
  destruct (status rep =? 200)%Z; cbn [negb]; unfold bind, response_json;
    (destruct (body rep) as [j|];
     [|do 2 eexists; split; [reflexivity|split; [reflexivity|discriminate]]]);
    unfold ret at 1.
  - unfold iter_entries. destruct j as [[|x l]|l|t];
      try (do 2 eexists; split; [reflexivity|split; [reflexivity|discriminate]]);
      (do 2 eexists; split; [reflexivity|split; [reflexivity|]];
       intros es _; exists id; exact Hid).
  - do 2 eexists; split; [reflexivity|split; [reflexivity|discriminate]].
Qed.

Lemma get_order_book_data_effect (trading_pair : string) (s : State) :
  output (snd (get_order_book_data trading_pair s)) = output s
  /\ forall es, fst (get_order_book_data trading_pair s) = Ok es ->
       exists id,
         _trading_pair_id_map (snd (get_order_book_data trading_pair s)) !! trading_pair
         = Some id.
Proof.
  destruct (get_order_book_data_run trading_pair s) as (r & s' & -> & Hout & Hres).
  split; [exact Hout|exact Hres].
Qed.

(** X12: when the fetch for a pair succeeds, the snapshot loop puts exactly
    one message on the queue for it: a Snapshot stamped with the clock, whose
    metadata names the pair and carries the instrument id the directory
    holds for it, never a missing one. *)
Theorem snapshot_pair_emits (trading_pair : string) (s s1 : State)
    (es : list NdaxOrderBookEntry) :
  get_order_book_data trading_pair s = (Ok es, s1) ->
  exists id m,
    snapshot_pair trading_pair s = (Ok tt, set_output (output s1 ++ [m]) s1)
    /\ _trading_pair_id_map s1 !! trading_pair = Some id
    /\ msg_type m = SNAPSHOT
    /\ msg_metadata m
       = Some {| md_trading_pair := trading_pair; md_instrument_id := Some id |}
    /\ timestamp m = clock s1.
Proof.
  intros Hrun.
  destruct (get_order_book_data_effect trading_pair s) as [_ Hres].
  rewrite Hrun in Hres. destruct (Hres es eq_refl) as [id Hid]. cbn [snd] in Hid.
  exists id. eexists. split; [|split; [exact Hid|]].
  - unfold snapshot_pair, try_except, snapshot_pair_body, get_new_order_book.
    unfold bind at 1. unfold bind at 1. rewrite Hrun.
    unfold bind at 1. unfold time_ms. unfold ret at 1.
    unfold bind at 1. unfold bind at 1. rewrite Hid. unfold put_nowait. reflexivity.
  - repeat split; reflexivity.
Qed.

Lemma snapshot_pair_emits_witness :
  exists s1 m,
    snapshot_pair "ETH-CAD" two_listed_then_book = (Ok tt, set_output (output s1 ++ [m]) s1)
    /\ msg_metadata m
       = Some {| md_trading_pair := "ETH-CAD"; md_instrument_id := Some 2 |}.
Proof.
  destruct (snapshot_pair_emits "ETH-CAD" two_listed_then_book
              (snd (get_order_book_data "ETH-CAD" two_listed_then_book))
              [entry_at 1626788175000; entry_at 1626788175416])
    as (id & m & Hrun & Hid & _ & Hmd & _).
  - vm_compute; reflexivity.
  - exists (snd (get_order_book_data "ETH-CAD" two_listed_then_book)), m.
    split; [exact Hrun|]. rewrite Hmd.
    assert (Hid' : _trading_pair_id_map
                     (snd (get_order_book_data "ETH-CAD" two_listed_then_book))
                     !! "ETH-CAD" = Some 2) by (vm_compute; reflexivity).
    rewrite Hid' in Hid. injection Hid as <-. reflexivity.
Defined.

Lemma on_error_output (l : log_entry) (d : sleep_req) (e : exn) (s : State) :
  output (snd (on_error l d e s)) = output s.
Proof.
  unfold on_error. destruct (is_cancelled e); [reflexivity|].
  unfold bind, log. rewrite sleep_output. reflexivity.
Qed.

Lemma snapshot_pair_grows (tps : list string) (tp : string) :
  In tp tps -> keeps (grows (snapshot_of_tracked tps)) (snapshot_pair tp).
Proof.
  intros Hin s.
  destruct (get_order_book_data tp s) as [[es|e] s1] eqn:Hrun.
  - destruct (snapshot_pair_emits tp s s1 es Hrun) as (id & m & -> & _ & Hty & Hmd & _).
    pose proof (get_order_book_data_effect tp s) as [Hout _]. rewrite Hrun in Hout.
    cbn [snd] in Hout |- *. exists [m]. cbn [output set_output]. rewrite Hout.
    split; [reflexivity|]. constructor; [|constructor].
    split; [exact Hty|]. exists tp, id. split; [exact Hin|exact Hmd].
  - apply grows_same.
    pose proof (get_order_book_data_effect tp s) as [Hout _]. rewrite Hrun in Hout.
    cbn [snd] in Hout.
    unfold snapshot_pair, try_except, snapshot_pair_body, get_new_order_book.
    unfold bind at 1. unfold bind at 1. rewrite Hrun.
    rewrite on_error_output. exact Hout.
Qed.

Lemma snapshot_cycle_grows (tps all : list string) :
  (forall tp, In tp tps -> In tp all) ->
  keeps (grows (snapshot_of_tracked all)) (for_each tps snapshot_pair).
Proof.
  induction tps as [|tp tps IH]; intros Hsub; cbn [for_each].
  - apply keeps_ret. apply grows_refl.
  - apply keeps_bind; [apply grows_trans| |intros _; apply IH].
    + apply snapshot_pair_grows. apply Hsub. left. reflexivity.
    + intros tp' Htp'. apply Hsub. right. exact Htp'.
Qed.

(** X13: whatever the network does and for however many turns, every
    message the snapshot loop adds to the queue is a Snapshot whose metadata
    names one of the tracked pairs together with a resolved instrument id. *)
Theorem snapshot_loop_emits_tracked (fuel : nat) (trading_pairs : list string)
    (s : State) :
  exists new,
    output (snd (listen_for_order_book_snapshots fuel trading_pairs s)) = output s ++ new
    /\ Forall (snapshot_of_tracked trading_pairs) new.
Proof.
  unfold listen_for_order_book_snapshots.
  apply (kept_while_true (grows (snapshot_of_tracked trading_pairs)));
    [apply grows_refl|apply grows_trans|].
  unfold snapshot_iteration.
  apply keeps_try_except; [apply grows_trans| |].
  - apply keeps_bind; [apply grows_trans| |].
    + apply snapshot_cycle_grows. auto.
    + intros _ s0. apply grows_same, sleep_output.
  - intros e s0. apply grows_same, on_error_output.
Qed.

(** X14: the snapshot loop leaves its [while True] only by cancellation:
    when the coroutine ends, the exception that ended it is
    [CancelledError]. *)
Theorem snapshot_loop_ends_by_cancellation (fuel : nat) (trading_pairs : list string)
    (s s' : State) (e : exn) :
  listen_for_order_book_snapshots fuel trading_pairs s = (Exited e, s') ->
  e = CancelledError.
Proof. apply snapshot_loop_exits_by_cancellation. Qed.

Lemma snapshot_loop_ends_by_cancellation_witness :
  exists s',
    listen_for_order_book_snapshots 3 ["BTC-CAD"] cancelled_while_waiting
    = (Exited CancelledError, s')
    /\ logs s' = [retry_5_warning].
Proof.
  destruct (listen_for_order_book_snapshots 3 ["BTC-CAD"] cancelled_while_waiting)
    as [[|e] s'] eqn:Hrun.
  - vm_compute in Hrun. discriminate Hrun.
  - rewrite (snapshot_loop_ends_by_cancellation _ _ _ _ _ Hrun) in Hrun |- *.
    exists s'. split; [reflexivity|].
    vm_compute in Hrun. injection Hrun as <-. reflexivity.
Defined.

(** ** Diff loop *)

Lemma set_output_same (s : State) : set_output (output s ++ []) s = s.
Proof. rewrite app_nil_r. destruct s. reflexivity. Qed.

Lemma handle_message_clean (msg : ws_frame) (s : State) :
  carries_batch msg = true ->
  handle_message (Some msg) s = (Ok tt, set_output (output s ++ frame_messages msg) s).
Proof.
  intros Hwf. unfold carries_batch in Hwf. unfold frame_messages.
  destruct (relevant_event (frame_n msg)) eqn:Hrel; cbn [negb orb] in Hwf.
  - destruct (frame_o msg) as [[|e es]|] eqn:Ho; try discriminate.
    unfold handle_message. rewrite Hrel. cbn [negb]. rewrite Ho.
    unfold bind. unfold ret at 1. cbn [map py_max]. unfold ret at 1.
    unfold message_for. unfold relevant_event in Hrel.
    destruct (String.eqb (frame_n msg) CONSTANTS.WS_ORDER_BOOK_CHANNEL); [reflexivity|].
    cbn [orb] in Hrel. rewrite Hrel. reflexivity.
  - rewrite (handle_message_irrelevant msg s Hrel). rewrite set_output_same. reflexivity.
Qed.

(** X15: over inbound events that are all decoded frames carrying what their
    event calls for, the listener emits the messages of the relevant frames
    in the order of arrival, skips the others, and changes nothing else. *)
Theorem iter_messages_clean (events : list ws_event) (s : State) :
  Forall clean_event events ->
  iter_messages events s
  = (Ok tt, set_output (output s ++ flat_map event_messages events) s).
Proof.
  intros Hall. revert s. induction Hall as [|ev events (msg & -> & Hwf) _ IH]; intros s.
  - cbn [iter_messages flat_map]. rewrite set_output_same. reflexivity.
  - cbn [iter_messages flat_map event_messages]. unfold bind.
    rewrite (handle_message_clean msg s Hwf). rewrite IH.
    cbn [output set_output]. rewrite <- app_assoc. reflexivity.
Qed.

Lemma iter_messages_clean_witness :
  fst (iter_messages [WsMessage (Some snapshot_frame); WsMessage (Some ping_frame);
                      WsMessage (Some update_frame)] idle) = Ok tt
  /\ map msg_type
       (output (snd (iter_messages [WsMessage (Some snapshot_frame);
                                    WsMessage (Some ping_frame);
                                    WsMessage (Some update_frame)] idle)))
     = [SNAPSHOT; DIFF].
Proof.
  rewrite (iter_messages_clean _ idle).
  - split; reflexivity.
  - repeat constructor; eexists; (split; [reflexivity|reflexivity]).
Defined.

Lemma subscribe_all (tps : list string) (outcomes : list (option exn)) (s : State) :
  Forall (fun o => o = None) outcomes ->
  subscribe tps outcomes s
  = (Ok tt, set_ws_sent (ws_sent s ++ map subscription tps) s).
Proof.
  revert outcomes s. induction tps as [|tp tps IH]; intros outcomes s Hall.
  - cbn [subscribe map]. rewrite app_nil_r. destruct s. reflexivity.
  - cbn [subscribe map]. unfold bind, send_request.
    assert (Hhd : hd None outcomes = None) by (destruct Hall; [reflexivity|assumption]).
    assert (Htl : Forall (fun o => o = None) (tl outcomes))
      by (destruct Hall; [constructor|assumption]).
    rewrite Hhd. rewrite (IH _ _ Htl). cbn [ws_sent set_ws_sent].
    rewrite <- app_assoc. reflexivity.
Qed.

(** *** What a session leaves alone *)

Lemma same_connection_refl (s : State) : same_connection s s.
Proof. split; reflexivity. Qed.

Lemma same_connection_trans (s1 s2 s3 : State) :
  same_connection s1 s2 -> same_connection s2 s3 -> same_connection s1 s3.
Proof. intros [H1 H2] [H3 H4]. split; congruence. Qed.

Lemma handle_message_ws_closed (raw : option ws_frame) (s : State) :
  ws_closed (snd (handle_message raw s)) = ws_closed s.
Proof.
  destruct raw as [msg|]; [|reflexivity]. unfold handle_message.
  destruct (relevant_event (frame_n msg)); [|reflexivity]. cbn [negb].
  unfold bind. destruct (frame_o msg) as [es|]; [|reflexivity]. unfold ret at 1.
  unfold py_max. destruct (map actionDateTime es); [reflexivity|]. unfold ret at 1.
  destruct (String.eqb _ _); [reflexivity|].
  destruct (String.eqb _ _); reflexivity.
Qed.

Lemma handle_message_ws_sent (raw : option ws_frame) (s : State) :
  ws_sent (snd (handle_message raw s)) = ws_sent s.
Proof.
  destruct raw as [msg|]; [|reflexivity]. unfold handle_message.
  destruct (relevant_event (frame_n msg)); [|reflexivity]. cbn [negb].
  unfold bind. destruct (frame_o msg) as [es|]; [|reflexivity]. unfold ret at 1.
  unfold py_max. destruct (map actionDateTime es); [reflexivity|]. unfold ret at 1.
  destruct (String.eqb _ _); [reflexivity|].
  destruct (String.eqb _ _); reflexivity.
Qed.

Lemma session_body_same_connection (tps : list string) (sess : ws_session) :
  keeps same_connection (session_body tps sess).
Proof.
  unfold session_body. apply keeps_bind; [apply same_connection_trans| |intros _].
  - apply keeps_subscribe;
      [apply same_connection_refl|apply same_connection_trans|].
    intros r o s. split; reflexivity.
  - apply keeps_iter_messages;
      [apply same_connection_refl|apply same_connection_trans|].
    intros raw s. split; [apply handle_message_ws|apply handle_message_ws_closed].
Qed.

Lemma on_error_same_connection (l : log_entry) (d : sleep_req) (e : exn) :
  keeps same_connection (on_error l d e).
Proof.
  apply keeps_on_error; [apply same_connection_refl|apply same_connection_trans| |].
  - intros d0 s. unfold sleep. destruct (sleep_in s) as [|[] rest]; split; reflexivity.
  - intros l0 s. split; reflexivity.
Qed.

(** A turn of the diff loop whose connection attempt succeeds, in terms of
    what the session does. *)
Lemma diff_iteration_connected (tps : list string) (s : State) (h : nat)
    (sess : ws_session) (rest : list connect_outcome) :
  ws_in s = Connected h sess :: rest ->
  diff_iteration tps s
  = try_finally
      (match fst (session_body tps sess (set_ws rest (Some h) s)) with
       | Ok _ => ret tt
       | Raise e => on_error retry_30_warning (Seconds 30) e
       end)
      ws_close
      (set_ws_closed
         (ws_closed (snd (session_body tps sess (set_ws rest (Some h) s))) ++ [h])
         (snd (session_body tps sess (set_ws rest (Some h) s)))).
Proof.
  intros Hin.
  unfold diff_iteration, try_finally at 1, try_except, diff_session.
  unfold bind at 1. unfold ws_connect. rewrite Hin. cbn [fst snd].
  unfold try_finally at 1.
  change (let* _ := subscribe tps (send_results sess) in iter_messages (inbound sess))
    with (session_body tps sess).
  destruct (session_body tps sess (set_ws rest (Some h) s)) as [[[]|e] s1];
    cbn [fst snd close_connection]; unfold try_finally; reflexivity.
Qed.

Lemma diff_iteration_connected_end (tps : list string) (s : State) (h : nat)
    (sess : ws_session) (rest : list connect_outcome) :
  ws_in s = Connected h sess :: rest ->
  exists r s3,
    diff_iteration tps s = (r, set_ws_closed (ws_closed s ++ [h; h]) s3)
    /\ ws s3 = Some h
    /\ (forall e, r = Raise e -> e = CancelledError).
Proof.
  intros Hin. rewrite (diff_iteration_connected tps s h sess rest Hin).
  pose proof (session_body_same_connection tps sess (set_ws rest (Some h) s)) as [Hws Hcl].
  destruct (session_body tps sess (set_ws rest (Some h) s)) as [r s1].
  cbn [fst snd ws ws_closed set_ws] in Hws, Hcl |- *. rewrite Hcl.
  unfold try_finally.
  destruct r as [[]|e].
  - unfold ret at 1. unfold ws_close. cbn [ws set_ws_closed]. rewrite Hws.
    unfold close_connection. cbn [ws_closed set_ws_closed].
    exists (Ok tt), s1. rewrite <- app_assoc.
    split; [destruct s1; reflexivity|]. split; [exact Hws|discriminate].
  - pose proof (on_error_same_connection retry_30_warning (Seconds 30) e
                  (set_ws_closed (ws_closed s ++ [h]) s1)) as [Hws' Hcl'].
    pose proof (on_error_raises_cancelled retry_30_warning (Seconds 30) e) as Hcancel.
    destruct (on_error retry_30_warning (Seconds 30) e
                (set_ws_closed (ws_closed s ++ [h]) s1)) as [r2 s2] eqn:Herr.
    cbn [snd ws ws_closed set_ws_closed] in Hws', Hcl'.
    unfold ws_close. rewrite Hws', Hws. unfold close_connection. rewrite Hcl'.
    exists r2, s2. rewrite <- app_assoc.
    split; [destruct r2 as [[]|e2]; destruct s2; reflexivity|].
    split; [congruence|]. intros e2 ->. eapply Hcancel. exact Herr.
Qed.

(** X16: a connection opened by a turn of the diff loop is closed by the end
    of that turn, however the session ended (end of stream, an exception,
    cancellation): once by the [async with] block and once by [finally];
    no other connection is closed. *)
Theorem diff_turn_closes_connection (trading_pairs : list string) (s : State) (h : nat)
    (sess : ws_session) (rest : list connect_outcome) :
  ws_in s = Connected h sess :: rest ->
  ws_closed (snd (diff_iteration trading_pairs s)) = ws_closed s ++ [h; h].
Proof.
  intros Hin.
  destruct (diff_iteration_connected_end trading_pairs s h sess rest Hin)
    as (r & s3 & -> & _). reflexivity.
Qed.

Lemma diff_turn_closes_connection_witness :
  fst (diff_iteration ["BTC-CAD"] broken_then_cancelled) = Raise CancelledError
  /\ ws_closed (snd (diff_iteration ["BTC-CAD"] broken_then_cancelled)) = [4; 4]%nat.
Proof.
  split; [vm_compute; reflexivity|].
  apply (diff_turn_closes_connection ["BTC-CAD"] broken_then_cancelled 4
           {| send_results := [];
              inbound := [WsMessage (Some snapshot_frame); WsMessage None;
                          WsMessage (Some update_frame)] |} []).
  reflexivity.
Defined.

(** X17: the diff loop ends by cancellation, or by the [UnboundLocalError]
    of its [finally] block; the latter only when its very first attempt to
    connect did not succeed.  Once a connection has been opened, nothing but
    cancellation ends the loop. *)
Theorem diff_loop_ends (fuel : nat) (trading_pairs : list string) (s s' : State)
    (e : exn) :
  listen_for_order_book_diffs fuel trading_pairs s = (Exited e, s') ->
  e = CancelledError
  \/ (e = UnboundLocalError "ws"
      /\ forall h sess rest, ws_in s <> Connected h sess :: rest).
Proof.
  intros Hrun.
  destruct (ws_in s) as [|[e0|h sess] rest] eqn:Hin.
  - destruct (diff_loop_exits _ _ _ _ _ Hrun) as [-> | ->]; [left; reflexivity|].
    right. split; [reflexivity|]. intros h sess rest. discriminate.
  - destruct (diff_loop_exits _ _ _ _ _ Hrun) as [-> | ->]; [left; reflexivity|].
    right. split; [reflexivity|]. intros h sess rest'. discriminate.
  - left. revert Hrun. unfold listen_for_order_book_diffs.
    destruct fuel as [|fuel]; cbn [while_true]; [discriminate|].
    destruct (diff_iteration_connected_end trading_pairs (set_ws (ws_in s) None s)
                h sess rest) as (r & s3 & -> & Hws & Hcancel).
    { cbn [ws_in set_ws]. exact Hin. }
    destruct r as [[]|e1].
    + apply diff_loop_bound_exits_by_cancellation.
      cbn [ws set_ws_closed]. rewrite Hws. discriminate.
    + intros [= <- <-]. apply Hcancel. reflexivity.
Qed.

Lemma diff_loop_ends_witness :
  exists s',
    listen_for_order_book_diffs 5 ["BTC-CAD"] broken_then_cancelled
    = (Exited CancelledError, s').
Proof.
  destruct (listen_for_order_book_diffs 5 ["BTC-CAD"] broken_then_cancelled)
    as [[|e] s'] eqn:Hrun.
  - vm_compute in Hrun. discriminate Hrun.
  - destruct (diff_loop_ends _ _ _ _ _ Hrun) as [-> | [_ Hno]].
    + exists s'. reflexivity.
    + exfalso. eapply Hno. reflexivity.
Defined.

Lemma on_error_ws_sent (l : log_entry) (d : sleep_req) (e : exn) (s : State) :
  ws_sent (snd (on_error l d e s)) = ws_sent s.
Proof.
  unfold on_error. destruct (is_cancelled e); [reflexivity|].
  unfold bind, log, sleep. cbn [sleep_in set_logs].
  destruct (sleep_in s) as [|[] rest]; reflexivity.
Qed.

Lemma iter_messages_ws_sent (events : list ws_event) (s : State) :
  ws_sent (snd (iter_messages events s)) = ws_sent s.
Proof.
  apply (keeps_iter_messages same_sent).
  - intros s0. reflexivity.
  - intros s1 s2 s3 H12 H23. unfold same_sent in *. congruence.
  - intros raw s0. apply handle_message_ws_sent.
Qed.

(** X18: on a connection whose requests all go through, a turn of the diff
    loop sends one subscription to [SubscribeLevel2] with depth 99999 for
    every tracked pair, in their order, and nothing else, whatever the frames
    that follow bring. *)
Theorem diff_turn_subscribes_all (trading_pairs : list string) (s : State) (h : nat)
    (sess : ws_session) (rest : list connect_outcome) :
  ws_in s = Connected h sess :: rest ->
  Forall (fun o => o = None) (send_results sess) ->
  ws_sent (snd (diff_iteration trading_pairs s))
  = ws_sent s ++ map subscription trading_pairs.
Proof.
  intros Hin Hsend. rewrite (diff_iteration_connected trading_pairs s h sess rest Hin).
  unfold session_body, bind at 1 2 3.
  rewrite (subscribe_all trading_pairs (send_results sess) _ Hsend).
  cbn [ws_sent set_ws].
  match goal with |- context [iter_messages ?ev ?st] =>
    pose proof (iter_messages_ws_sent ev st) as Hit;
    destruct (iter_messages ev st) as [r s1] end.
  cbn [snd fst ws_sent set_ws_sent set_ws] in Hit |- *.
  unfold try_finally.
  match goal with |- context [match ?X ?st with (_, _) => _ end] =>
    assert (Hx : ws_sent (snd (X st)) = ws_sent st)
      by (destruct r as [[]|e0]; [reflexivity|apply on_error_ws_sent]);
    destruct (X st) as [r2 s2] end.
  cbn [snd ws_sent set_ws_closed] in Hx.
  unfold ws_close, close_connection.
  destruct (ws s2); cbn [snd ws_sent set_ws_closed]; congruence.
Qed.

Lemma diff_turn_subscribes_all_witness :
  ws_sent (snd (diff_iteration ["BTC-CAD"; "ETH-CAD"] one_clean_session))
  = [subscription "BTC-CAD"; subscription "ETH-CAD"].
Proof.
  apply (diff_turn_subscribes_all ["BTC-CAD"; "ETH-CAD"] one_clean_session 3
           {| send_results := [None; None];
              inbound := [WsMessage (Some snapshot_frame); WsMessage (Some ping_frame);
                          WsMessage (Some update_frame)] |} []).
  - reflexivity.
  - repeat constructor.
Defined.

(** X19: when a connection is opened, every subscription goes through and
    the stream then ends after frames that raise nothing, the turn completes
    without a log line and without a sleep: the loop reconnects at once.  The
    turn has subscribed every pair, emitted the messages of the frames in
    order, and closed the connection. *)
Theorem diff_turn_clean_end (trading_pairs : list string) (s : State) (h : nat)
    (sess : ws_session) (rest : list connect_outcome) :
  ws_in s = Connected h sess :: rest ->
  Forall (fun o => o = None) (send_results sess) ->
  Forall clean_event (inbound sess) ->
  exists s',
    diff_iteration trading_pairs s = (Ok tt, s')
    /\ sleeps s' = sleeps s
    /\ logs s' = logs s
    /\ ws_sent s' = ws_sent s ++ map subscription trading_pairs
    /\ output s' = output s ++ flat_map event_messages (inbound sess)
    /\ ws_closed s' = ws_closed s ++ [h; h]
    /\ ws_in s' = rest.
Proof.
  intros Hin Hsend Hclean.
  rewrite (diff_iteration_connected trading_pairs s h sess rest Hin).
  unfold session_body, bind at 1 2 3.
  rewrite (subscribe_all trading_pairs (send_results sess) _ Hsend).
  rewrite (iter_messages_clean (inbound sess) _ Hclean).
  cbn [fst snd]. unfold try_finally, ret, ws_close, close_connection.
  cbn [ws set_ws set_ws_sent set_output set_ws_closed].
  eexists. split; [reflexivity|].
  cbn [sleeps logs ws_sent output ws_closed ws_in set_ws set_ws_sent set_output
       set_ws_closed].
  rewrite <- app_assoc. repeat split; reflexivity.
Qed.

Lemma diff_turn_clean_end_witness :
  exists s',
    diff_iteration ["BTC-CAD"; "ETH-CAD"] one_clean_session = (Ok tt, s')
    /\ sleeps s' = []
    /\ logs s' = []
    /\ map msg_type (output s') = [SNAPSHOT; DIFF]
    /\ ws_closed s' = [3; 3]%nat.
Proof.
  destruct (diff_turn_clean_end ["BTC-CAD"; "ETH-CAD"] one_clean_session 3
              {| send_results := [None; None];
                 inbound := [WsMessage (Some snapshot_frame); WsMessage (Some ping_frame);
                             WsMessage (Some update_frame)] |} [])
    as (s' & Hrun & Hsl & Hlg & _ & Hout & Hcl & _).
  - reflexivity.
  - repeat constructor.
  - repeat constructor; eexists; (split; [reflexivity|reflexivity]).
  - exists s'. split; [exact Hrun|]. rewrite Hsl, Hlg, Hout, Hcl.
    repeat split; reflexivity.
Defined.

(** X20: when a session on an opened connection fails with anything but a
    cancellation and the task is not cancelled during the wait, the turn
    completes: the warning is logged, 30 seconds are slept, the connection is
    closed, and what the session had put on the queue stays there.  The loop
    then goes on to its next attempt. *)
Theorem diff_turn_failure_retries (trading_pairs : list string) (s s1 : State) (h : nat)
    (sess : ws_session) (rest : list connect_outcome) (e : exn) :
  ws_in s = Connected h sess :: rest ->
  session_body trading_pairs sess (set_ws rest (Some h) s) = (Raise e, s1) ->
  is_cancelled e = false ->
  hd false (sleep_in s1) = false ->
  exists s',
    diff_iteration trading_pairs s = (Ok tt, s')
    /\ logs s' = logs s1 ++ [retry_30_warning]
    /\ sleeps s' = sleeps s1 ++ [Seconds 30]
    /\ output s' = output s1
    /\ ws_closed s' = ws_closed s ++ [h; h]
    /\ ws_in s' = ws_in s1.
Proof.
  intros Hin Hbody Hnc Hsleep.
  rewrite (diff_iteration_connected trading_pairs s h sess rest Hin).
  pose proof (session_body_same_connection trading_pairs sess (set_ws rest (Some h) s))
    as [Hws Hcl].
  rewrite Hbody in Hws, Hcl |- *. cbn [fst snd ws ws_closed set_ws] in Hws, Hcl |- *.
  unfold try_finally, on_error. rewrite Hnc.
  unfold bind, log, sleep. cbn [sleep_in set_logs set_ws_closed].
  destruct (sleep_in s1) as [|[] tl]; cbn in Hsleep; try discriminate;
    unfold ws_close, close_connection;
    cbn [ws set_sleep set_logs set_ws_closed]; rewrite Hws;
    (eexists; split; [reflexivity|]);
    cbn [logs sleeps output ws_closed ws_in set_sleep set_logs set_ws_closed];
    rewrite Hcl, <- app_assoc; repeat split; reflexivity.
Qed.

Lemma diff_turn_failure_retries_witness :
  exists s',
    diff_iteration ["BTC-CAD"] one_broken_session = (Ok tt, s')
    /\ logs s' = [retry_30_warning]
    /\ sleeps s' = [Seconds 30]
    /\ map msg_type (output s') = [SNAPSHOT]
    /\ ws_closed s' = [4; 4]%nat.
Proof.
  destruct (diff_turn_failure_retries ["BTC-CAD"] one_broken_session
              (snd (session_body ["BTC-CAD"]
                      {| send_results := [];
                         inbound := [WsMessage (Some snapshot_frame); WsMessage None;
                                     WsMessage (Some update_frame)] |}
                      (set_ws [] (Some 4%nat) one_broken_session)))
              4
              {| send_results := [];
                 inbound := [WsMessage (Some snapshot_frame); WsMessage None;
                             WsMessage (Some update_frame)] |}
              [] (ValueError "Expected object or value"))
    as (s' & Hrun & Hlg & Hsl & Hout & Hcl & _).
  - reflexivity.
  - vm_compute; reflexivity.
  - reflexivity.
  - vm_compute; reflexivity.
  - exists s'. split; [exact Hrun|]. rewrite Hlg, Hsl, Hout, Hcl.
    repeat split; vm_compute; reflexivity.
Defined.

(** ** The hourly cadence of the snapshot loop *)




(** X23: when a subscription request raises, the session ends there with
    that exception: the pairs after it are not subscribed and no frame of
    the connection is read. *)
Theorem session_stops_at_failed_send (trading_pairs : list string) (sess : ws_session)
    (k : nat) (e : exn) (more : list (option exn)) (s : State) :
  send_results sess = repeat None k ++ Some e :: more ->
  (k < length trading_pairs)%nat ->
  session_body trading_pairs sess s
  = (Raise e, set_ws_sent (ws_sent s ++ map subscription (firstn (S k) trading_pairs)) s).
Proof.
  intros Hsend Hk. unfold session_body, bind at 1. rewrite Hsend. clear Hsend.
  assert (Hsub : subscribe trading_pairs (repeat None k ++ Some e :: more) s
                 = (Raise e,
                    set_ws_sent
                      (ws_sent s ++ map subscription (firstn (S k) trading_pairs)) s)).
  { revert k s Hk. induction trading_pairs as [|tp tps IH]; intros k s Hk;
      [cbn in Hk; lia|].
    destruct k as [|k].
    - cbn [repeat app subscribe hd]. unfold bind, send_request. destruct tps; reflexivity.
    - cbn [repeat app subscribe hd tl]. unfold bind at 1. unfold send_request at 1.
      rewrite IH by (cbn in Hk; lia).
      cbn [ws_sent set_ws_sent]. rewrite <- app_assoc. reflexivity. }
  rewrite Hsub. reflexivity.
Qed.

Lemma session_stops_at_failed_send_witness :
  session_body ["BTC-CAD"; "ETH-CAD"; "XRP-CAD"]
    {| send_results := [None; Some (ClientError "connection closed")];
       inbound := [WsMessage (Some update_frame)] |} idle
  = (Raise (ClientError "connection closed"),
     set_ws_sent [subscription "BTC-CAD"; subscription "ETH-CAD"] idle).
Proof.
  apply (session_stops_at_failed_send ["BTC-CAD"; "ETH-CAD"; "XRP-CAD"]
           {| send_results := [None; Some (ClientError "connection closed")];
              inbound := [WsMessage (Some update_frame)] |}
           1 (ClientError "connection closed") [] idle).
  - reflexivity.
  - cbn. lia.
Defined.
